(** * The viral-video agencies: rosters, dispatch graphs and tool wrappers

    A shallow embedding of [viral_video_agency.py],
    [viral_video_agency_nodejs.py] and of the three scripts
    [run_agency.py], [start_building.py] and [start_building_nodejs.py]:
    their start-up blocks, menus, loops and automated builds.

    Python text is [string]; [None] is made explicit ([option], [pyval]);
    a Python [float] is a binary64 [float]; [os.environ] and the file
    system are finite maps; calls into the operating system are either
    modelled on those maps or taken from the [Host] the tools run on. *)

From Stdlib Require Import ZArith Floats Ascii String.
From stdpp Require Import gmap strings list fin_maps relations pretty.

Local Open Scope string_scope.

(* Decimal literals denote the nearest binary64 value, as in Python. *)
Set Warnings "-inexact-float".

(** ** Roles and agencies *)

(** The tool classes the two files declare. *)
Inductive Tool :=
  | TaskMasterTool
  | FileOperationTool
  | PythonExecutorTool
  | NodeExecutorTool
  | TypeScriptFileTool
  | PackageJsonTool.

(** [Agent(name=..., description=..., instructions=..., tools=...,
    temperature=...)]. The [instructions] prose is not carried: no
    operation of the repository reads it. *)
Record Agent := {
  name : string;
  description : string;
  tools : list Tool;
  temperature : float
}.

(** One element of the list given to [Agency(...)]: a bare agent is an
    entry point the user talks to, a two-element list [[a, b]] lets [a]
    start a conversation with [b]. *)
Inductive chart_entry :=
  | Entry (a : Agent)
  | Flow (a b : Agent).

Record Agency := {
  agency_chart : list chart_entry;
  agency_temperature : float;
  max_prompt_tokens : Z
}.

(** A source file: the agents it declares, in order, and its agency. *)
Record AgencyFile := {
  roster : list Agent;
  agency : Agency
}.

Module PythonAgency.

Definition project_manager : Agent := {|
  name := "ProjectManager";
  description := "Manages the overall Viral Video Engine project, coordinates agents, and tracks progress via Task Master.";
  tools := [TaskMasterTool; FileOperationTool];
  temperature := 0.2 |}.

Definition infrastructure_dev : Agent := {|
  name := "InfrastructureDev";
  description := "Specializes in project setup, environment configuration, and infrastructure tasks (Task 11).";
  tools := [FileOperationTool; PythonExecutorTool; TaskMasterTool];
  temperature := 0.1 |}.

Definition template_dev : Agent := {|
  name := "TemplateDev";
  description := "Develops the viral template parsing system (Task 12) to structure the 29 templates.";
  tools := [FileOperationTool; PythonExecutorTool; TaskMasterTool];
  temperature := 0.2 |}.

Definition script_gen_dev : Agent := {|
  name := "ScriptGenDev";
  description := "Develops the script generation module using GPT-4o (Task 13).";
  tools := [FileOperationTool; PythonExecutorTool; TaskMasterTool];
  temperature := 0.3 |}.

Definition media_dev : Agent := {|
  name := "MediaDev";
  description := "Develops visual asset collection (Task 14) and audio processing (Task 15) systems.";
  tools := [FileOperationTool; PythonExecutorTool; TaskMasterTool];
  temperature := 0.2 |}.

Definition video_assembly_dev : Agent := {|
  name := "VideoAssemblyDev";
  description := "Develops the video assembly engine (Task 16) and multi-variant system (Task 17).";
  tools := [FileOperationTool; PythonExecutorTool; TaskMasterTool];
  temperature := 0.2 |}.

Definition integration_dev : Agent := {|
  name := "IntegrationDev";
  description := "Develops the main application interface (Task 20) and integrates all modules.";
  tools := [FileOperationTool; PythonExecutorTool; TaskMasterTool];
  temperature := 0.2 |}.

Definition testing_agent : Agent := {|
  name := "TestingAgent";
  description := "Creates and runs tests for all implemented features.";
  tools := [FileOperationTool; PythonExecutorTool; TaskMasterTool];
  temperature := 0.1 |}.

Definition viral_video_agency : Agency := {|
  agency_chart := [
    Entry project_manager;
    Flow project_manager infrastructure_dev;
    Flow project_manager template_dev;
    Flow project_manager script_gen_dev;
    Flow project_manager media_dev;
    Flow project_manager video_assembly_dev;
    Flow project_manager integration_dev;
    Flow project_manager testing_agent;
    Flow infrastructure_dev testing_agent;
    Flow template_dev script_gen_dev;
    Flow script_gen_dev video_assembly_dev;
    Flow media_dev video_assembly_dev;
    Flow video_assembly_dev integration_dev;
    Flow integration_dev testing_agent ];
  agency_temperature := 0.2;
  max_prompt_tokens := 25000 |}.

Definition file : AgencyFile := {|
  roster := [ project_manager; infrastructure_dev; template_dev;
              script_gen_dev; media_dev; video_assembly_dev;
              integration_dev; testing_agent ];
  agency := viral_video_agency |}.

End PythonAgency.

Module NodeAgency.

Definition project_manager : Agent := {|
  name := "ProjectManager";
  description := "Manages the Viral Video Engine project, coordinates Node.js development, and tracks progress via Task Master.";
  tools := [TaskMasterTool; NodeExecutorTool];
  temperature := 0.2 |}.

Definition infrastructure_dev : Agent := {|
  name := "NodeInfrastructureDev";
  description := "Sets up Node.js/TypeScript project structure, dependencies, and configuration (Task 11).";
  tools := [TypeScriptFileTool; PackageJsonTool; NodeExecutorTool; TaskMasterTool];
  temperature := 0.1 |}.

Definition template_dev : Agent := {|
  name := "NodeTemplateDev";
  description := "Develops the viral template system in TypeScript (Task 12).";
  tools := [TypeScriptFileTool; NodeExecutorTool; TaskMasterTool];
  temperature := 0.2 |}.

Definition script_gen_dev : Agent := {|
  name := "NodeScriptGenDev";
  description := "Implements GPT-4o script generation in TypeScript (Task 13).";
  tools := [TypeScriptFileTool; NodeExecutorTool; TaskMasterTool];
  temperature := 0.3 |}.

Definition media_dev : Agent := {|
  name := "NodeMediaDev";
  description := "Implements media processing with Node.js APIs (Tasks 14-15).";
  tools := [TypeScriptFileTool; NodeExecutorTool; TaskMasterTool];
  temperature := 0.2 |}.

Definition video_assembly_dev : Agent := {|
  name := "NodeVideoAssemblyDev";
  description := "Creates video assembly engine with fluent-ffmpeg (Tasks 16-17).";
  tools := [TypeScriptFileTool; NodeExecutorTool; TaskMasterTool];
  temperature := 0.2 |}.

Definition cli_dev : Agent := {|
  name := "NodeCLIDev";
  description := "Creates the CLI interface and main application (Task 20).";
  tools := [TypeScriptFileTool; PackageJsonTool; NodeExecutorTool; TaskMasterTool];
  temperature := 0.2 |}.

Definition testing_agent : Agent := {|
  name := "NodeTestingAgent";
  description := "Creates Jest tests for all TypeScript modules.";
  tools := [TypeScriptFileTool; NodeExecutorTool; TaskMasterTool];
  temperature := 0.1 |}.

Definition viral_video_agency : Agency := {|
  agency_chart := [
    Entry project_manager;
    Flow project_manager infrastructure_dev;
    Flow project_manager template_dev;
    Flow project_manager script_gen_dev;
    Flow project_manager media_dev;
    Flow project_manager video_assembly_dev;
    Flow project_manager cli_dev;
    Flow project_manager testing_agent;
    Flow infrastructure_dev testing_agent;
    Flow template_dev script_gen_dev;
    Flow script_gen_dev video_assembly_dev;
    Flow media_dev video_assembly_dev;
    Flow video_assembly_dev cli_dev;
    Flow cli_dev testing_agent ];
  agency_temperature := 0.2;
  max_prompt_tokens := 25000 |}.

Definition file : AgencyFile := {|
  roster := [ project_manager; infrastructure_dev; template_dev;
              script_gen_dev; media_dev; video_assembly_dev;
              cli_dev; testing_agent ];
  agency := viral_video_agency |}.

End NodeAgency.

(** The two configuration files of the repository. *)
Definition agency_files : list AgencyFile :=
  [PythonAgency.file; NodeAgency.file].

(** ** The dispatch graph of an agency *)

Definition role_names (f : AgencyFile) : list string := name <$> roster f.

(** Dispatch edges, by role name, in chart order. *)
Definition dispatch_edges (ag : Agency) : list (string * string) :=
  omap (λ e, match e with
             | Entry _ => None
             | Flow a b => Some (name a, name b)
             end) (agency_chart ag).

(** Entry points: the bare agents of the chart. *)
Definition entry_points (ag : Agency) : list string :=
  omap (λ e, match e with
             | Entry a => Some (name a)
             | Flow _ _ => None
             end) (agency_chart ag).

(** The root is the first entry point. *)
Definition root (ag : Agency) : option string := head (entry_points ag).

Definition edge (g : list (string * string)) (a b : string) : Prop :=
  (a, b) ∈ g.

(** A path of zero or more dispatch edges. *)
Definition reachable (g : list (string * string)) : relation string :=
  rtc (edge g).

Definition successors (g : list (string * string)) (a : string) : list string :=
  snd <$> filter (λ e, e.1 = a) g.

(** One round of graph search: keep what is known, add every successor. *)
Definition expand (g : list (string * string)) (seen : list string) : list string :=
  remove_dups (seen ++ (seen ≫= successors g)).

Fixpoint search (n : nat) (g : list (string * string)) (seen : list string) : list string :=
  match n with
  | O => seen
  | S n' => search n' g (expand g seen)
  end.

(** Roles found from [r] within as many rounds as there are edges. *)
Definition reachable_from (g : list (string * string)) (r : string) : list string :=
  search (length g) g [r].

Definition has_inbound (g : list (string * string)) (b : string) : Prop :=
  ∃ a, edge g a b.

(** The connectivity invariant of one file: every declared role other
    than the root is reached from the root and has an inbound edge. *)
Definition connected_from_root (f : AgencyFile) : Prop :=
  ∃ r, root (agency f) = Some r ∧ r ∈ role_names f ∧
    ∀ b, b ∈ role_names f → b ≠ r →
      reachable (dispatch_edges (agency f)) r b ∧
      has_inbound (dispatch_edges (agency f)) b.

(** No declared role is an orphan: each is an entry point of the chart
    or the target of a dispatch edge. *)
Definition no_orphan (f : AgencyFile) : Prop :=
  ∀ b, b ∈ role_names f →
    b ∈ entry_points (agency f) ∨ has_inbound (dispatch_edges (agency f)) b.

(** The same, decided by running the search. *)
Definition connected_check (f : AgencyFile) : bool :=
  let g := dispatch_edges (agency f) in
  match root (agency f) with
  | None => false
  | Some r =>
      bool_decide (r ∈ role_names f) &&
      forallb (λ b, bool_decide (b = r) ||
                    (bool_decide (b ∈ reachable_from g r) &&
                     bool_decide (b ∈ g.*2)))
              (role_names f)
  end.

(** The temperatures a file declares: one per agent, one for the agency. *)
Definition temperatures (f : AgencyFile) : list float :=
  (temperature <$> roster f) ++ [agency_temperature (agency f)].

(** Temperatures are compared as binary64 numbers. *)
Definition in_unit_interval (t : float) : bool :=
  (0 <=? t)%float && (t <=? 1)%float.

(** The role renaming between the Python-target and the Node.js-target
    agency, as the topology claim gives it. *)
Definition node_name (py : string) : string :=
  if decide (py = "ProjectManager") then "ProjectManager"
  else if decide (py = "InfrastructureDev") then "NodeInfrastructureDev"
  else if decide (py = "TemplateDev") then "NodeTemplateDev"
  else if decide (py = "ScriptGenDev") then "NodeScriptGenDev"
  else if decide (py = "MediaDev") then "NodeMediaDev"
  else if decide (py = "VideoAssemblyDev") then "NodeVideoAssemblyDev"
  else if decide (py = "IntegrationDev") then "NodeCLIDev"
  else if decide (py = "TestingAgent") then "NodeTestingAgent"
  else py.

Definition rename_edge (e : string * string) : string * string :=
  (node_name e.1, node_name e.2).

(** Edges leaving the root, and edges between workers. *)
Definition root_edges (ag : Agency) : list (string * string) :=
  filter (λ e, root ag = Some e.1) (dispatch_edges ag).

Definition worker_edges (ag : Agency) : list (string * string) :=
  filter (λ e, root ag ≠ Some e.1) (dispatch_edges ag).

(** ** Python values, exceptions and text *)

(** What a tool's [run] hands back: text, or [None] when control falls
    off the end of the method. *)
Inductive pyval :=
  | PyStr (s : string)
  | PyNone.

Definition is_text (v : pyval) : bool :=
  match v with
  | PyStr _ => true
  | PyNone => false
  end.

Inductive exn :=
  | TypeError (msg : string)
  | FileNotFoundError (path : string)
  | FileExistsError (path : string)
  | IsADirectoryError (path : string)
  | NotADirectoryError (path : string)
  | OSError (msg : string).

(** [str(e)]; a path is shown between quotes as it is. *)
Definition str_exn (e : exn) : string :=
  match e with
  | TypeError msg => msg
  | FileNotFoundError p => "[Errno 2] No such file or directory: '" +:+ p +:+ "'"
  | FileExistsError p => "[Errno 17] File exists: '" +:+ p +:+ "'"
  | IsADirectoryError p => "[Errno 21] Is a directory: '" +:+ p +:+ "'"
  | NotADirectoryError p => "[Errno 20] Not a directory: '" +:+ p +:+ "'"
  | OSError msg => msg
  end.

Definition LF : ascii := "010"%char.
Definition CR : ascii := "013"%char.
Definition dquote : string := String "034"%char EmptyString.

(** An optional field inside an f-string: [None] prints as [None]. *)
Definition fmt (o : option string) : string := default "None" o.

(** [sep.join(l)] *)
Fixpoint str_join (sep : string) (l : list string) : string :=
  match l with
  | [] => EmptyString
  | [x] => x
  | x :: l' => x +:+ sep +:+ str_join sep l'
  end.

Fixpoint has_CR (s : string) : bool :=
  match s with
  | EmptyString => false
  | String c s' => bool_decide (c = CR) || has_CR s'
  end.

Inductive platform := Posix | Windows.

(** [os.linesep] *)
Definition linesep (os : platform) : string :=
  match os with
  | Posix => String LF EmptyString
  | Windows => String CR (String LF EmptyString)
  end.

(** Writing in text mode with the default [newline=None]: every line
    feed becomes [os.linesep]. *)
Fixpoint newlines_out (os : platform) (s : string) : string :=
  match s with
  | EmptyString => EmptyString
  | String c s' =>
      if decide (c = LF) then linesep os +:+ newlines_out os s'
      else String c (newlines_out os s')
  end.

(** Reading in text mode with the default [newline=None] (universal
    newlines): CR LF, and a CR alone, come back as one line feed. *)
Fixpoint newlines_in (s : string) : string :=
  match s with
  | EmptyString => EmptyString
  | String c s' =>
      if decide (c = CR) then
        match s' with
        | String c' s'' =>
            if decide (c' = LF) then String LF (newlines_in s'')
            else String LF (newlines_in s')
        | EmptyString => String LF EmptyString
        end
      else String c (newlines_in s')
  end.

(** ** The host: platform, [os.path], the shell *)

(** [subprocess.CompletedProcess] with [capture_output=True, text=True]. *)
Record CompletedProcess := {
  returncode : Z;
  stdout : string;
  stderr : string
}.

(** The machine the tools run on. [subprocess_run command cwd] is what
    [subprocess.run(command, shell=True, cwd=cwd, capture_output=True,
    text=True)] gives: the finished process, or the exception raised
    when the process could not be started. *)
Class Host := {
  os_name : platform;
  path_join : string → string → string;
  path_dirname : string → string;
  subprocess_run : string → option string → exn + CompletedProcess
}.

(** The directory both files hard-code. *)
Definition PROJECT_ROOT : string :=
  "C:\Users\Stuart\Desktop\Projects\viralengine".

(** ** The file system *)

Inductive node :=
  | Dir
  | File (data : string).

Abbreviation filesystem := (gmap string node).

(** A computation that may raise and may change the file system; the
    changes made before an exception stay. *)
Definition io (A : Type) : Type := filesystem → (exn + A) * filesystem.

Global Instance io_ret : MRet io := λ A a fs, (inr a, fs).

Global Instance io_bind : MBind io := λ A B k m fs,
  match m fs with
  | (inr a, fs') => k a fs'
  | (inl e, fs') => (inl e, fs')
  end.

(** The same without state, for code that only calls out. *)
Global Instance exn_bind : MBind (sum exn) := λ A B k m,
  match m with
  | inr a => k a
  | inl e => inl e
  end.

(** [try: m  except Exception as e: return h e], for a body that ends in
    [return]. *)
Definition try_except {A} (m : io A) (h : exn → A) : filesystem → A * filesystem :=
  λ fs, match m fs with
        | (inr a, fs') => (a, fs')
        | (inl e, fs') => (h e, fs')
        end.

Section FileSystem.
Context `{H : Host}.

(** Why a new entry cannot be made at [p], if so: its directory is
    missing or is a file. A path that is its own directory name (a
    root) or has none (relative to the working directory) passes. *)
Definition parent_check (fs : filesystem) (p : string) : option exn :=
  let d := path_dirname p in
  if decide (d = p ∨ d = EmptyString) then None
  else match fs !! d with
       | Some Dir => None
       | Some (File _) => Some (NotADirectoryError p)
       | None => Some (FileNotFoundError p)
       end.

(** [os.mkdir(d)] *)
Definition os_mkdir (d : string) : io unit := λ fs,
  match fs !! d with
  | Some _ => (inl (FileExistsError d), fs)
  | None =>
      match parent_check fs d with
      | Some e => (inl e, fs)
      | None => (inr (), <[d := Dir]> fs)
      end
  end.

(** [os.makedirs(d, exist_ok=True)]: missing ancestors first, then
    [d] itself; an existing directory is accepted. A path has at most
    as many ancestors as it has characters. *)
Fixpoint makedirs_from (fuel : nat) (d : string) : io unit := λ fs,
  let head := path_dirname d in
  let '(r, fs1) :=
    match fuel with
    | S n =>
        if decide (head ≠ EmptyString ∧ head ≠ d ∧ fs !! head = None)
        then match makedirs_from n head fs with
             | (inl (FileExistsError _), fs') => (inr (), fs')
             | r => r
             end
        else (inr (), fs)
    | O => (inr (), fs)
    end in
  match r with
  | inl e => (inl e, fs1)
  | inr _ =>
      match os_mkdir d fs1 with
      | (inl e, fs2) =>
          match fs2 !! d with
          | Some Dir => (inr (), fs2)
          | _ => (inl e, fs2)
          end
      | r' => r'
      end
  end.

Definition os_makedirs (d : string) : io unit :=
  makedirs_from (String.length d) d.

(** [open(p, 'w')]: the file is made, or emptied. *)
Definition open_w (p : string) : io unit := λ fs,
  match fs !! p with
  | Some Dir => (inl (IsADirectoryError p), fs)
  | Some (File _) => (inr (), <[p := File EmptyString]> fs)
  | None =>
      if decide (p = EmptyString) then (inl (FileNotFoundError p), fs)
      else match parent_check fs p with
           | Some e => (inl e, fs)
           | None => (inr (), <[p := File EmptyString]> fs)
           end
  end.

(** [open(p, 'a')]: the file is made if missing, and kept otherwise. *)
Definition open_a (p : string) : io unit := λ fs,
  match fs !! p with
  | Some Dir => (inl (IsADirectoryError p), fs)
  | Some (File _) => (inr (), fs)
  | None =>
      if decide (p = EmptyString) then (inl (FileNotFoundError p), fs)
      else match parent_check fs p with
           | Some e => (inl e, fs)
           | None => (inr (), <[p := File EmptyString]> fs)
           end
  end.

(** [f.write(content)] on the file opened at [p], in text mode. *)
Definition f_write (p : string) (content : option string) : io unit := λ fs,
  match content with
  | None => (inl (TypeError "write() argument must be str, not None"), fs)
  | Some c =>
      match fs !! p with
      | Some (File old) =>
          (inr (), <[p := File (old +:+ newlines_out os_name c)]> fs)
      | _ => (inl (OSError "I/O operation on closed file."), fs)
      end
  end.

(** [with open(p, 'r') as f: f.read()] *)
Definition read_text (p : string) : io string := λ fs,
  match fs !! p with
  | Some (File data) => (inr (newlines_in data), fs)
  | Some Dir => (inl (IsADirectoryError p), fs)
  | None => (inl (FileNotFoundError p), fs)
  end.

(** ** The tools *)

(** [FileOperationTool.run]; [TypeScriptFileTool.run] has the same
    body. *)
Definition FileOperationTool_run
    (operation file_path : string) (content : option string)
    : filesystem → pyval * filesystem :=
  let full_path := path_join PROJECT_ROOT file_path in
  try_except
    (if decide (operation = "create") then
       os_makedirs (path_dirname full_path) ;;
       open_w full_path ;;
       f_write full_path (Some (default EmptyString content)) ;;
       mret (PyStr ("Created file: " +:+ file_path))
     else if decide (operation = "read") then
       s ← read_text full_path;
       mret (PyStr s)
     else if decide (operation = "write") then
       open_w full_path ;;
       f_write full_path content ;;
       mret (PyStr ("Updated file: " +:+ file_path))
     else if decide (operation = "append") then
       open_a full_path ;;
       f_write full_path content ;;
       mret (PyStr ("Appended to file: " +:+ file_path))
     else mret PyNone)
    (λ e, PyStr ("Error: " +:+ str_exn e)).

Definition TypeScriptFileTool_run := FileOperationTool_run.

(** [os.path.join(a, b)] for an optional [b]. *)
Definition path_join_opt (a : string) (b : option string) : exn + string :=
  match b with
  | Some b' => inr (path_join a b')
  | None =>
      inl (TypeError "expected str, bytes or os.PathLike object, not NoneType")
  end.

(** What both shell wrappers make of a finished process. *)
Definition process_text (r : CompletedProcess) : string :=
  if decide (returncode r = 0%Z) then stdout r
  else "Error: " +:+ stderr r.

(** [NodeExecutorTool.run] *)
Definition NodeExecutorTool_run
    (command : string) (working_dir : option string) : pyval :=
  match
    cwd ← path_join_opt PROJECT_ROOT working_dir;
    subprocess_run command (Some cwd)
  with
  | inr result => PyStr (process_text result)
  | inl e => PyStr ("Error executing command: " +:+ str_exn e)
  end.

(** The command line [TaskMasterTool.run] builds, if the action is one
    it knows. *)
Definition TaskMasterTool_cmd
    (task_id action : string) (status notes : option string)
    : option string :=
  if decide (action = "show") then
    Some ("task-master show " +:+ task_id)
  else if decide (action = "set-status") then
    Some ("task-master set-status --id=" +:+ task_id
            +:+ " --status=" +:+ fmt status)
  else if decide (action = "update-subtask") then
    Some ("task-master update-subtask --id=" +:+ task_id
            +:+ " --prompt=" +:+ dquote +:+ fmt notes +:+ dquote)
  else None.

(** [TaskMasterTool.run], the same in both files. *)
Definition TaskMasterTool_run
    (task_id action : string) (status notes : option string) : pyval :=
  match TaskMasterTool_cmd task_id action status notes with
  | None => PyStr ("Unknown action: " +:+ action)
  | Some cmd =>
      match subprocess_run cmd None with
      | inr result => PyStr (process_text result)
      | inl e => PyStr ("Error executing command: " +:+ str_exn e)
      end
  end.

End FileSystem.

(** ** A POSIX host, for running the tools on concrete inputs *)

Module posixpath.

Definition sep : ascii := "/"%char.

(** [p[:p.rfind('/') + 1]] *)
Fixpoint head_of (p : string) : string :=
  match p with
  | EmptyString => EmptyString
  | String c p' =>
      let h := head_of p' in
      if decide (h = EmptyString)
      then (if decide (c = sep) then String c EmptyString else EmptyString)
      else String c h
  end.

(** [s.rstrip('/')] *)
Fixpoint rstrip_sep (s : string) : string :=
  match s with
  | EmptyString => EmptyString
  | String c s' =>
      let r := rstrip_sep s' in
      if decide (r = EmptyString ∧ c = sep) then EmptyString else String c r
  end.

Definition dirname (p : string) : string :=
  let head := head_of p in
  if decide (rstrip_sep head = EmptyString) then head else rstrip_sep head.

Definition join (a b : string) : string :=
  if String.prefix "/" b then b
  else if decide (a = EmptyString) then b
  else if String.prefix "/" (String.rev a) then a +:+ b
  else a +:+ "/" +:+ b.

End posixpath.

(** A shell that knows [echo ok] and [exit 1], and has a task tracker
    installed that takes every command. *)
Definition sample_shell (command : string) (cwd : option string)
    : exn + CompletedProcess :=
if decide (command = "echo ok") then
  inr {| returncode := 0;
         stdout := "ok" +:+ String LF EmptyString;
         stderr := EmptyString |}
else if decide (command = "exit 1") then
  inr {| returncode := 1; stdout := EmptyString; stderr := EmptyString |}
else if String.prefix "task-master " command then
  inr {| returncode := 0;
         stdout := "done" +:+ String LF EmptyString;
         stderr := EmptyString |}
else
  inr {| returncode := 127;
         stdout := EmptyString;
         stderr := "/bin/sh: 1: " +:+ command +:+ ": not found"
                     +:+ String LF EmptyString |}.

Definition posix_host : Host := {|
  os_name := Posix;
  path_join := posixpath.join;
  path_dirname := posixpath.dirname;
  subprocess_run := sample_shell
|}.

(** ** Start-up of the scripts *)

Abbreviation environ := (gmap string string).

(** [os.getenv(k)] *)
Definition getenv (env : environ) (k : string) : option string := env !! k.

(** Truth value of [os.getenv(k)]: set, and not empty. *)
Definition truthy (o : option string) : bool :=
  match o with
  | Some s => negb (bool_decide (s = EmptyString))
  | None => false
  end.

(** [os.environ[k] = v] *)
Definition environ_set (env : environ) (k : string) (v : option string)
    : exn + environ :=
  match v with
  | Some s => inr (<[k := s]> env)
  | None => inl (TypeError "str expected, not NoneType")
  end.

(** What a script does that the outside can see. [SetOpenaiKey] is the
    call [set_openai_key(os.getenv("OPENAI_API_KEY"))] made when the
    agency module is imported; it and [os.chdir] belong to libraries and
    are recorded, not interpreted. *)
Inductive event :=
  | SetOpenaiKey (key : option string)
  | Chdir (path : string)
  | Print (line : string)
  | CallMain.

Inductive outcome :=
  | Started (trace : list event)
  | Exited (code : Z) (trace : list event)
  | Uncaught (e : exn) (trace : list event).

Definition starts (o : outcome) : bool :=
  match o with
  | Started _ => true
  | _ => false
  end.

Definition trace_of (o : outcome) : list event :=
  match o with
  | Started t | Exited _ t | Uncaught _ t => t
  end.

Definition is_warning (e : event) : bool :=
  match e with
  | Print line => String.prefix "⚠️ Warning" line
  | _ => false
  end.

(** How many times a warning was printed. *)
Definition warnings (o : outcome) : nat :=
  length (filter (λ e, is_warning e = true) (trace_of o)).

Definition required_keys : list string :=
  ["OPENAI_API_KEY"; "ELEVENLABS_API_KEY"; "PEXELS_API_KEY"; "PIXABAY_API_KEY"].

Definition missing_keys (env : environ) : list string :=
  filter (λ key, truthy (getenv env key) = false) required_keys.

(** [run_agency.py] run as a script. *)
Definition run_agency (env : environ) : outcome :=
  let missing := missing_keys env in
  Started
    ([SetOpenaiKey (getenv env "OPENAI_API_KEY"); Chdir PROJECT_ROOT]
     ++ (if decide (missing = []) then []
         else [Print ("⚠️ Warning: Missing API keys: "
                        +:+ str_join ", " missing);
               Print ("Some features may not work properly."
                        +:+ String LF EmptyString)])
     ++ [CallMain]).

(** [start_building.py] run as a script; [env] is the environment after
    [load_dotenv()]. *)
Definition start_building (env : environ) : outcome :=
  match environ_set env "OPENAI_API_KEY" (getenv env "OPENAI_API_KEY") with
  | inl e => Uncaught e []
  | inr env' =>
      let trace :=
        [SetOpenaiKey (getenv env' "OPENAI_API_KEY"); Chdir PROJECT_ROOT] in
      if truthy (getenv env' "OPENAI_API_KEY") then Started (trace ++ [CallMain])
      else Exited 1
             (trace ++
              [Print "❌ Error: OPENAI_API_KEY not found in environment variables.";
               Print "Please set it in your .env file."])
  end.

(** [start_building_nodejs.py] run as a script. *)
Definition start_building_nodejs (env : environ) : outcome :=
  match environ_set env "OPENAI_API_KEY" (getenv env "OPENAI_API_KEY") with
  | inl e => Uncaught e []
  | inr env' =>
      let trace :=
        [SetOpenaiKey (getenv env' "OPENAI_API_KEY"); Chdir PROJECT_ROOT] in
      if truthy (getenv env' "OPENAI_API_KEY") then Started (trace ++ [CallMain])
      else Exited 1 (trace ++ [Print "❌ OPENAI_API_KEY not found in .env"])
  end.

(** A missing secret only costs a warning: the script starts, and warns
    once. *)
Definition missing_secret_only_warns (script : environ → outcome) : Prop :=
  ∀ env key, key ∈ required_keys → truthy (getenv env key) = false →
    starts (script env) = true ∧ warnings (script env) = 1.

(** ** Sample inputs *)

(** [a], a carriage return, [b]; and what reading it back gives. *)
Definition CR_content : string :=
  String "a" (String CR (String "b" EmptyString)).

Definition LF_content : string :=
  String "a" (String LF (String "b" EmptyString)).

(** A project directory that holds a directory [src]. *)
Definition fs_with_src : filesystem :=
  {[ posixpath.join PROJECT_ROOT "src" := Dir ]}.

(** A result that reports a failure. *)
Definition is_error_text (v : pyval) : bool :=
  match v with
  | PyStr s => String.prefix "Error" s
  | PyNone => false
  end.

(** ** Text at the console *)

(** [s * n] *)
Fixpoint str_repeat (s : string) (n : nat) : string :=
  match n with
  | O => EmptyString
  | S n' => s +:+ str_repeat s n'
  end.

Definition bytes (l : list nat) : string :=
  string_of_list_ascii (ascii_of_nat <$> l).

(** The characters [str.strip] removes, as UTF-8: the ASCII ones, then
    U+0085, U+00A0, U+1680, U+2000 to U+200A, U+2028, U+2029, U+202F,
    U+205F and U+3000. *)
Definition whitespace : list string :=
  ((λ b, bytes [b]) <$> [9; 10; 11; 12; 13; 28; 29; 30; 31; 32])
  ++ [bytes [194; 133]; bytes [194; 160]; bytes [225; 154; 128]]
  ++ ((λ b, bytes [226; 128; b]) <$> seq 128 11)
  ++ [bytes [226; 128; 168]; bytes [226; 128; 169]; bytes [226; 128; 175];
      bytes [226; 129; 159]; bytes [227; 128; 128]].

Fixpoint str_drop (n : nat) (s : string) : string :=
  match n, s with
  | S n', String _ s' => str_drop n' s'
  | _, _ => s
  end.

(** [s] without the token of [tokens] it starts with, if any. *)
Definition drop_token (tokens : list string) (s : string) : option string :=
  head (omap (λ w, if String.prefix w s
                   then Some (str_drop (String.length w) s) else None)
             tokens).

(** Tokens are dropped from the front as long as there is one; a text
    holds no more tokens than characters. *)
Fixpoint strip_front (tokens : list string) (fuel : nat) (s : string) : string :=
  match fuel with
  | O => s
  | S n =>
      match drop_token tokens s with
      | Some s' => strip_front tokens n s'
      | None => s
      end
  end.

Definition lstrip (s : string) : string :=
  strip_front whitespace (String.length s) s.

Definition rstrip (s : string) : string :=
  String.rev (strip_front (String.rev <$> whitespace) (String.length s)
                (String.rev s)).

(** [s.strip()] *)
Definition strip (s : string) : string := rstrip (lstrip s).

Definition lower_letter (c : ascii) : ascii :=
  let n := nat_of_ascii c in
  if (65 <=? n)%nat && (n <=? 90)%nat then ascii_of_nat (n + 32) else c.

(** [s.lower()] on the letters A to Z; the other characters are kept. *)
Fixpoint lower (s : string) : string :=
  match s with
  | EmptyString => EmptyString
  | String c s' => String (lower_letter c) (lower s')
  end.

(** [command.lower() in ['exit', 'quit']]. No character outside A to Z
    lowers to a letter of these two words, so [lower] decides it. *)
Definition is_exit (command : string) : bool :=
  bool_decide (lower command ∈ ["exit"; "quit"]).

(** A byte that continues a UTF-8 character. *)
Definition is_continuation (c : ascii) : bool :=
  let n := nat_of_ascii c in (128 <=? n)%nat && (n <? 192)%nat.

(** [s[:n]]: the first [n] characters of a UTF-8 text. *)
Fixpoint take_chars (n : nat) (s : string) : string :=
  match s with
  | EmptyString => EmptyString
  | String c s' =>
      if is_continuation c then String c (take_chars n s')
      else match n with
           | O => EmptyString
           | S n' => String c (take_chars n' s')
           end
  end.

(** ** Sessions at the console *)

(** What a session does that the outside can see: lines printed,
    lines asked for and typed, requests to the agency with what came
    back, pauses, and the two user interfaces of the library. *)
Inductive console_event :=
  | Printed (line : string)
  | Asked (prompt answer : string)
  | AskedEOF (prompt : string)
  | Completion (prompt : string) (response : exn + string)
  | Slept (seconds : nat)
  | DemoGradio (height : Z)
  | RunDemo.

(** Why a session stops before its end: [input] met the end of
    input, the agency raised, or [sys.exit] was called. *)
Inductive stop :=
  | EOFError
  | Raised (e : exn)
  | SystemExit (code : Z).

(** The lines still to be typed, and what happened so far. *)
Record console := {
  stdin : list string;
  trace : list console_event
}.

Definition session (A : Type) : Type := console → (stop + A) * console.

Global Instance session_ret : MRet session := λ A a c, (inr a, c).

Global Instance session_bind : MBind session := λ A B k m c,
  match m c with
  | (inr a, c') => k a c'
  | (inl s, c') => (inl s, c')
  end.

Definition record (e : console_event) (c : console) : console :=
  {| stdin := stdin c; trace := trace c ++ [e] |}.

(** The prompts sent to the agency, in order. *)
Definition sent (t : list console_event) : list string :=
  omap (λ e, match e with
             | Completion prompt _ => Some prompt
             | _ => None
             end) t.

(** The lines printed, in order. *)
Definition printed (t : list console_event) : list string :=
  omap (λ e, match e with
             | Printed line => Some line
             | _ => None
             end) t.

(** The agency behind [viral_video_agency.get_completion]: what it
    answers to a prompt, given the prompts it was sent before. *)
Class Swarm := respond : list string → string → exn + string.

Section Console.
Context `{agency_swarm : Swarm}.

Definition print (line : string) : session unit :=
  λ c, (inr (), record (Printed line) c).

(** [input(prompt)] *)
Definition input (prompt : string) : session string :=
  λ c, match stdin c with
       | [] => (inl EOFError, record (AskedEOF prompt) c)
       | line :: rest =>
           (inr line,
            {| stdin := rest; trace := trace c ++ [Asked prompt line] |})
       end.

(** [viral_video_agency.get_completion(prompt)] *)
Definition get_completion (prompt : string) : session string :=
  λ c, let r := respond (sent (trace c)) prompt in
       (match r with
        | inr result => inr result
        | inl e => inl (Raised e)
        end,
        record (Completion prompt r) c).

(** [time.sleep(seconds)] *)
Definition sleep (seconds : nat) : session unit :=
  λ c, (inr (), record (Slept seconds) c).

Definition demo_gradio (height : Z) : session unit :=
  λ c, (inr (), record (DemoGradio height) c).

Definition run_demo : session unit :=
  λ c, (inr (), record RunDemo c).

(** [sys.exit(code)] *)
Definition sys_exit (code : Z) : session unit :=
  λ c, (inl (SystemExit code), c).

End Console.

Module RunAgency.
Section Script.
Context `{agency_swarm : Swarm}.

(** The loop of option 4, [for i, task in enumerate(tasks, 1)], at
    step [i] of [total]. *)
Fixpoint run_tasks (i total : nat) (tasks : list string) : session unit :=
  match tasks with
  | [] => mret ()
  | task :: rest =>
      print ("
📌 Step " +:+ pretty i +:+ "/" +:+ pretty total +:+ ": "
               +:+ take_chars 80 task +:+ "...") ;;
      result ← get_completion task;
      print ("✅ Completed: " +:+ take_chars 200 result +:+ "...") ;;
      _ ← input "
Press Enter to continue to next task...";
      run_tasks (S i) total rest
  end.

(** [main()] of [run_agency.py] *)
Definition main : session unit :=
  print "
╔══════════════════════════════════════════════════════════════╗
║          🎬 VIRAL VIDEO ENGINE - AGENCY SWARM 🎬              ║
║                                                              ║
║  Automated Multi-Agent System for Video Generation Pipeline  ║
╚══════════════════════════════════════════════════════════════╝
    " ;;
  print "Choose interaction mode:" ;;
  print "1. Web Interface (Gradio)" ;;
  print "2. Terminal Interface" ;;
  print "3. Execute specific task" ;;
  print "4. Full autonomous build" ;;
  choice ← input "
Enter choice (1-4): ";
  let choice := strip choice in
  (if decide (choice = "1") then
     print "
🌐 Starting web interface..." ;;
     print "Open browser at http://localhost:7860" ;;
     demo_gradio 900 ;;
     mret ()
   else if decide (choice = "2") then
     print "
💻 Starting terminal interface..." ;;
     run_demo ;;
     mret ()
   else if decide (choice = "3") then
     print "
📋 Available tasks:" ;;
     print "- Setup infrastructure (Task 11)" ;;
     print "- Implement template parser (Task 12)" ;;
     print "- Create script generator (Task 13)" ;;
     print "- Build media processors (Tasks 14-15)" ;;
     print "- Develop video assembly (Task 16)" ;;
     print "- Create main application (Task 20)" ;;
     task ← input "
Enter task command: ";
     result ← get_completion task;
     print ("
✅ Result: " +:+ result) ;;
     mret ()
   else if decide (choice = "4") then
     print "
🚀 Starting full autonomous build..." ;;
     print "The agency will now build the entire Viral Video Engine.
" ;;
     let tasks := [
       "Check Task Master for the next available task and begin implementation of Task 11 (Setup Core Project Infrastructure). Create all required directories, files, and configurations as specified.";
       "Once infrastructure is complete, proceed with Task 12 (Implement Viral Template Parser). Create the JSON schema and TemplateManager class.";
       "After templates are ready, implement Task 13 (Develop Script Generation Module) with GPT-4o integration.";
       "Build Task 14 (Visual Asset Collection System) with Pexels and Pixabay integration.";
       "Implement Task 15 (Audio Processing Module) with ElevenLabs integration.";
       "Create Task 16 (Video Assembly Engine) using FFmpeg for video generation.";
       "Develop Task 17 (Multi-Variant Export System) for creating video variations.";
       "Build Task 20 (Main Application Interface) to tie everything together.";
       "Run comprehensive tests on all implemented features."
     ] in
     run_tasks 1 (length tasks) tasks ;;
     mret ()
   else
     print "Invalid choice. Exiting." ;;
     sys_exit 1 ;;
     mret ()) ;;
  mret ().

End Script.
End RunAgency.

Module StartBuilding.
Section Script.
Context `{agency_swarm : Swarm}.

(** The loop of [interactive_mode()]: one turn for each line typed,
    from the trace [t] on. *)
Fixpoint interactive_loop (lines : list string) (t : list console_event)
    : (stop + unit) * console :=
  match lines with
  | [] => (inl EOFError,
           {| stdin := []; trace := t ++ [AskedEOF "📝 Enter command: "] |})
  | line :: rest =>
      let c := {| stdin := rest;
                  trace := t ++ [Asked "📝 Enter command: " line] |} in
      let command := strip line in
      if is_exit command then print "Goodbye!" c
      else if decide (command = EmptyString) then interactive_loop rest (trace c)
      else
        match
          (print "
⏳ Processing..." ;;
           result ← get_completion command;
           print ("
📤 Response:
" +:+ result +:+ "
") ;;
           print (str_repeat "-" 60)) c
        with
        | (inr _, c') => interactive_loop rest (trace c')
        | (inl s, c') => (inl s, c')
        end
  end.

(** [while True: ...], on the lines still to be typed. *)
Definition while_true : session unit :=
  λ c, interactive_loop (stdin c) (trace c).

(** [print_header()] of [start_building.py] *)
Definition print_header : session unit :=
  print "
╔═══════════════════════════════════════════════════════════════════════╗
║                   🎬 VIRAL VIDEO ENGINE BUILDER 🎬                     ║
║                                                                       ║
║           Automated Development with Agency Swarm Agents              ║
╚═══════════════════════════════════════════════════════════════════════╝
    " ;;
  mret ().

(** [automated_build()] of [start_building.py] *)
Definition automated_build : session unit :=
  print "
🚀 STARTING AUTOMATED BUILD PROCESS
" ;;
  print (str_repeat "=" 70) ;;
  print "
📦 PHASE 1: PROJECT INFRASTRUCTURE" ;;
  print (str_repeat "-" 40) ;;
  let task_11_prompt := "
    Start building the Viral Video Engine project. 
    
    First, check Task Master for Task 11 (Setup Core Project Infrastructure).
    Then delegate to InfrastructureDev to:
    1. Create the complete directory structure as specified
    2. Set up requirements.txt with all dependencies
    3. Create config.py for API key management
    4. Implement the logging system
    5. Create main.py entry point
    
    Update Task Master status as subtasks are completed.
    Report back with the completed file structure.
    " in
  print "🔧 Setting up project infrastructure..." ;;
  result ← get_completion task_11_prompt;
  print "✅ Infrastructure setup complete" ;;
  sleep 2 ;;
  print "
📋 PHASE 2: VIRAL TEMPLATE SYSTEM" ;;
  print (str_repeat "-" 40) ;;
  let task_12_prompt := "
    Now implement Task 12 (Viral Template Parser).
    
    Delegate to TemplateDev to:
    1. Create the JSON schema for viral templates
    2. Create templates/viral_templates.json with structure for all 29 templates
    3. Implement the TemplateManager class in scripts/template_manager.py
    4. Add template selection and recommendation methods
    
    The 29 templates are divided into:
    - Templates 1-14: Dopamine Listicles
    - Templates 15-29: Lazy Viral Templates
    
    Update Task Master as subtasks are completed.
    " in
  print "📝 Building template system..." ;;
  result ← get_completion task_12_prompt;
  print "✅ Template system implemented" ;;
  sleep 2 ;;
  print "
✍️ PHASE 3: SCRIPT GENERATION MODULE" ;;
  print (str_repeat "-" 40) ;;
  let task_13_prompt := "
    Implement Task 13 (Script Generation Module).
    
    Delegate to ScriptGenDev to:
    1. Create scripts/script_generator.py with ScriptGenerator class
    2. Implement GPT-4o integration using OpenAI API
    3. Design prompt engineering for viral content
    4. Add batch processing capabilities
    5. Implement caching system
    
    Ensure it uses templates from the TemplateManager.
    Update Task Master status.
    " in
  print "🤖 Creating script generation module..." ;;
  result ← get_completion task_13_prompt;
  print "✅ Script generator ready" ;;
  sleep 2 ;;
  print "
🎥 PHASE 4: MEDIA PROCESSING SYSTEMS" ;;
  print (str_repeat "-" 40) ;;
  let task_14_15_prompt := "
    Implement Tasks 14 and 15 (Visual and Audio Processing).
    
    Delegate to MediaDev to create:
    
    For Task 14 (Visual Assets):
    1. scripts/clip_manager.py with Pexels/Pixabay integration
    2. Clip categorization system
    3. Preprocessing pipeline for 9:16 format
    
    For Task 15 (Audio):
    1. scripts/audio_manager.py with ElevenLabs integration
    2. Voiceover generation methods
    3. Audio mixing capabilities
    
    Use the API keys from .env file.
    Update Task Master for both tasks.
    " in
  print "📸 Building media processing systems..." ;;
  result ← get_completion task_14_15_prompt;
  print "✅ Media processors implemented" ;;
  sleep 2 ;;
  print "
🎬 PHASE 5: VIDEO ASSEMBLY ENGINE" ;;
  print (str_repeat "-" 40) ;;
  let task_16_prompt := "
    Implement Task 16 (Video Assembly Engine).
    
    Delegate to VideoAssemblyDev to create:
    1. scripts/video_assembler.py with VideoAssembler class
    2. Caption generation with kinetic typography
    3. Clip sequencing algorithm
    4. FFmpeg integration for video creation
    5. Export functionality for MP4 output
    
    This is the core engine that combines everything.
    Update Task Master status.
    " in
  print "🔨 Building video assembly engine..." ;;
  result ← get_completion task_16_prompt;
  print "✅ Video assembly engine complete" ;;
  sleep 2 ;;
  print "
🎯 PHASE 6: MAIN APPLICATION" ;;
  print (str_repeat "-" 40) ;;
  let task_20_prompt := ("
    Implement Task 20 (Main Application Interface).
    
    Delegate to IntegrationDev to:
    1. Update main.py with ViralVideoEngine class
    2. Create CLI interface with argparse
    3. Implement batch processing
    4. Add progress tracking
    5. Integrate all modules together
    
    Create a working command like:
    python main.py --topic " +:+ dquote +:+ "AI tools" +:+ dquote +:+ " --template 1 --variants 3
    
    Update Task Master when complete.
    ") in
  print "🔗 Creating main application..." ;;
  result ← get_completion task_20_prompt;
  print "✅ Main application ready" ;;
  sleep 2 ;;
  print "
🧪 PHASE 7: TESTING & VALIDATION" ;;
  print (str_repeat "-" 40) ;;
  let test_prompt := ("
    Now test the complete system.
    
    Delegate to TestingAgent to:
    1. Verify all modules are properly integrated
    2. Test a sample video generation with topic " +:+ dquote +:+ "Top 5 AI Tools" +:+ dquote +:+ "
    3. Validate all API integrations work
    4. Check that output follows viral template structure
    5. Report any issues found
    
    Provide a final status report.
    ") in
  print "🔍 Running system tests..." ;;
  result ← get_completion test_prompt;
  print "✅ Testing complete" ;;
  print ("
" +:+ (str_repeat "=" 70)) ;;
  print "🎉 BUILD COMPLETE! The Viral Video Engine is ready to use." ;;
  print (str_repeat "=" 70) ;;
  print "
To generate a video, run:" ;;
  print ("  python main.py --topic " +:+ dquote +:+ "Your Topic" +:+ dquote +:+ " --template 1 --variants 3") ;;
  print "
Check the output/ directory for generated videos." ;;
  mret ().

(** [interactive_mode()] of [start_building.py] *)
Definition interactive_mode : session unit :=
  print "
💬 INTERACTIVE MODE" ;;
  print "Type your commands for the agency. Type 'exit' to quit.
" ;;
  while_true ;;
  mret ().

(** [main()] of [start_building.py] *)
Definition main : session unit :=
  print_header ;;
  print "
Select mode:" ;;
  print "1. 🚀 Automated Build (Recommended)" ;;
  print "2. 💬 Interactive Mode" ;;
  print "3. 🌐 Web Interface (Gradio)" ;;
  print "4. 📊 Check Project Status" ;;
  choice ← input "
Enter choice (1-4): ";
  let choice := strip choice in
  (if decide (choice = "1") then
     automated_build ;;
     mret ()
   else if decide (choice = "2") then
     interactive_mode ;;
     mret ()
   else if decide (choice = "3") then
     print "
🌐 Starting web interface at http://localhost:7860" ;;
     demo_gradio 900 ;;
     mret ()
   else if decide (choice = "4") then
     print "
📊 Checking project status..." ;;
     result ← get_completion "Check Task Master for current project status and list all pending tasks.";
     print result ;;
     mret ()
   else
     print "Invalid choice." ;;
     mret ()) ;;
  mret ().

End Script.
End StartBuilding.

Module StartBuildingNode.
Section Script.
Context `{agency_swarm : Swarm}.

(** The loop of option 2 in [main()]: one turn for each line typed,
    from the trace [t] on. *)
Fixpoint interactive_loop (lines : list string) (t : list console_event)
    : (stop + unit) * console :=
  match lines with
  | [] => (inl EOFError,
           {| stdin := [];
              trace := t ++ [AskedEOF "📝 Command (or 'exit'): "] |})
  | line :: rest =>
      let c := {| stdin := rest;
                  trace := t ++ [Asked "📝 Command (or 'exit'): " line] |} in
      let command := strip line in
      if is_exit command then (inr (), c)
      else
        match
          (result ← get_completion command;
           print ("
" +:+ result +:+ "
")) c
        with
        | (inr _, c') => interactive_loop rest (trace c')
        | (inl s, c') => (inl s, c')
        end
  end.

(** [while True: ...], on the lines still to be typed. *)
Definition while_true : session unit :=
  λ c, interactive_loop (stdin c) (trace c).

(** [print_header()] of [start_building_nodejs.py] *)
Definition print_header : session unit :=
  print "
╔═══════════════════════════════════════════════════════════════════════╗
║              🎬 VIRAL VIDEO ENGINE - NODE.JS BUILDER 🎬                ║
║                                                                       ║
║         Agency Swarm → Node.js/TypeScript Implementation              ║
╚═══════════════════════════════════════════════════════════════════════╝
    " ;;
  mret ().

(** [automated_build()] of [start_building_nodejs.py] *)
Definition automated_build : session unit :=
  print "
🚀 STARTING NODE.JS/TYPESCRIPT BUILD
" ;;
  print (str_repeat "=" 70) ;;
  print "
📦 PHASE 1: NODE.JS PROJECT SETUP" ;;
  print (str_repeat "-" 40) ;;
  let setup_prompt := "
    Start building the Viral Video Engine in Node.js/TypeScript.
    
    First, check Task Master for Task 11, then delegate to NodeInfrastructureDev to:
    1. Initialize npm project with package.json
    2. Install TypeScript and core dependencies:
       - typescript, tsx, @types/node
       - openai (official SDK)
       - fluent-ffmpeg
       - axios, dotenv
       - winston (logging)
    3. Create tsconfig.json with ES module configuration
    4. Set up the directory structure:
       - src/lib/ (core modules)
       - src/api/ (API integrations)  
       - src/types/ (TypeScript types)
       - src/config/ (configuration)
    5. Create src/config/index.ts for environment variables
    
    Update Task Master as you complete subtasks.
    " in
  print "🔧 Setting up Node.js project..." ;;
  result ← get_completion setup_prompt;
  print "✅ Node.js project initialized" ;;
  sleep 2 ;;
  print "
📋 PHASE 2: TEMPLATE SYSTEM (TYPESCRIPT)" ;;
  print (str_repeat "-" 40) ;;
  let template_prompt := "
    Implement Task 12 in TypeScript.
    
    Delegate to NodeTemplateDev to create:
    1. src/types/template.ts with TypeScript interfaces:
       - ViralTemplate interface
       - TemplateSection interface
       - TemplateCategory type
    2. src/lib/templateManager.ts with TemplateManager class:
       - loadTemplates() method
       - selectTemplate(topic) method
       - getTemplateById(id) method
    3. data/templates.json with all 29 template structures
    
    Use TypeScript for full type safety.
    Update Task Master status.
    " in
  print "📝 Building TypeScript template system..." ;;
  result ← get_completion template_prompt;
  print "✅ Template system implemented" ;;
  sleep 2 ;;
  print "
✍️ PHASE 3: OPENAI SCRIPT GENERATION" ;;
  print (str_repeat "-" 40) ;;
  let openai_prompt := "
    Implement Task 13 using OpenAI's Node.js SDK.
    
    Delegate to NodeScriptGenDev to create:
    1. src/types/script.ts with VideoScript interface
    2. src/lib/scriptGenerator.ts using OpenAI Node.js SDK:
       - Initialize OpenAI client with API key
       - generateScript(topic, template) method
       - batchGenerate(topics) method
       - Implement caching with Map or node-cache
    3. src/lib/promptBuilder.ts for prompt engineering
    
    Use async/await for all API calls.
    Update Task Master.
    " in
  print "🤖 Integrating OpenAI SDK..." ;;
  result ← get_completion openai_prompt;
  print "✅ Script generation ready" ;;
  sleep 2 ;;
  print "
🎥 PHASE 4: MEDIA PROCESSING APIS" ;;
  print (str_repeat "-" 40) ;;
  let media_prompt := "
    Implement Tasks 14 and 15 with Node.js APIs.
    
    Delegate to NodeMediaDev to create:
    
    Visual (Task 14):
    1. src/api/pexels.ts - Pexels API client
    2. src/api/pixabay.ts - Pixabay API client  
    3. src/lib/clipManager.ts - manages video clips
    
    Audio (Task 15):
    1. src/api/elevenlabs.ts - ElevenLabs REST API
    2. src/lib/audioManager.ts - audio processing with fluent-ffmpeg
    
    Use axios for HTTP requests, handle errors properly.
    Update Task Master for both tasks.
    " in
  print "📸 Building media processing..." ;;
  result ← get_completion media_prompt;
  print "✅ Media APIs integrated" ;;
  sleep 2 ;;
  print "
🎬 PHASE 5: VIDEO ASSEMBLY (FLUENT-FFMPEG)" ;;
  print (str_repeat "-" 40) ;;
  let ffmpeg_prompt := "
    Implement Task 16 using fluent-ffmpeg.
    
    Delegate to NodeVideoAssemblyDev to create:
    1. src/lib/videoAssembler.ts with VideoAssembler class:
       - assembleVideo(script, clips, audio) method
       - addCaptions() using drawtext filter
       - addTransitions() for smooth cuts
       - exportVideo() returning Buffer or file path
    2. src/lib/captionGenerator.ts for caption timing
    3. Handle async video rendering with Promises
    
    Use fluent-ffmpeg's chain API for video processing.
    Update Task Master.
    " in
  print "🔨 Building video assembly engine..." ;;
  result ← get_completion ffmpeg_prompt;
  print "✅ Video assembly complete" ;;
  sleep 2 ;;
  print "
🎯 PHASE 6: CLI APPLICATION" ;;
  print (str_repeat "-" 40) ;;
  let cli_prompt := ("
    Implement Task 20 as a Node.js CLI.
    
    Delegate to NodeCLIDev to create:
    1. src/cli.ts using commander.js:
       - --topic flag for video topic
       - --template flag for template ID
       - --variants flag for number of variants
       - --output flag for output directory
    2. src/index.ts with ViralVideoEngine class that:
       - Orchestrates all modules
       - Shows progress with ora spinner
       - Handles errors gracefully
    3. Update package.json scripts:
       - " +:+ dquote +:+ "generate" +:+ dquote +:+ ": " +:+ dquote +:+ "tsx src/cli.ts" +:+ dquote +:+ "
       - " +:+ dquote +:+ "build" +:+ dquote +:+ ": " +:+ dquote +:+ "tsc" +:+ dquote +:+ "
    
    Make it work with: npm run generate -- --topic " +:+ dquote +:+ "AI tools" +:+ dquote +:+ " --template 1
    Update Task Master.
    ") in
  print "🔗 Creating CLI application..." ;;
  result ← get_completion cli_prompt;
  print "✅ CLI ready" ;;
  sleep 2 ;;
  print "
🧪 PHASE 7: JEST TESTING" ;;
  print (str_repeat "-" 40) ;;
  let test_prompt := "
    Set up testing with Jest and TypeScript.
    
    Delegate to NodeTestingAgent to:
    1. Install jest, ts-jest, @types/jest
    2. Configure jest.config.js for TypeScript
    3. Create src/__tests__/ directory
    4. Write basic tests for:
       - templateManager.test.ts
       - scriptGenerator.test.ts
       - videoAssembler.test.ts
    5. Mock external API calls
    
    Run tests with: npm test
    Report results.
    " in
  print "🔍 Setting up tests..." ;;
  result ← get_completion test_prompt;
  print "✅ Testing complete" ;;
  print ("
" +:+ (str_repeat "=" 70)) ;;
  print "🎉 NODE.JS BUILD COMPLETE!" ;;
  print (str_repeat "=" 70) ;;
  print "
To generate a video:" ;;
  print ("  npm run generate -- --topic " +:+ dquote +:+ "Your Topic" +:+ dquote +:+ " --template 1 --variants 3") ;;
  print "
To run in development:" ;;
  print "  npm run dev" ;;
  print "
To build for production:" ;;
  print "  npm run build && npm start" ;;
  mret ().

(** [main()] of [start_building_nodejs.py] *)
Definition main : session unit :=
  print_header ;;
  print "
Select mode:" ;;
  print "1. 🚀 Automated Node.js Build" ;;
  print "2. 💬 Interactive Mode" ;;
  print "3. 🌐 Web Interface" ;;
  print "4. 📊 Check Status" ;;
  choice ← input "
Choice (1-4): ";
  let choice := strip choice in
  (if decide (choice = "1") then
     automated_build ;;
     mret ()
   else if decide (choice = "2") then
     print "
💬 Interactive Mode - Give commands to the agency
" ;;
     while_true ;;
     mret ()
   else if decide (choice = "3") then
     print "
🌐 Starting Gradio interface..." ;;
     demo_gradio 900 ;;
     mret ()
   else if decide (choice = "4") then
     result ← get_completion "Check Task Master status and list pending tasks";
     print result ;;
     mret ()
   else
     mret ()) ;;
  mret ().

End Script.
End StartBuildingNode.

(** ** What is typed and what is sent *)

(** The commands typed before the first [exit] or [quit], stripped. *)
Fixpoint before_exit (lines : list string) : list string :=
  match lines with
  | [] => []
  | line :: rest =>
      if is_exit (strip line) then [] else strip line :: before_exit rest
  end.

(** Some line typed is [exit] or [quit]. *)
Definition types_exit (lines : list string) : bool :=
  existsb (λ line, is_exit (strip line)) lines.

(** An agency that answers every prompt. *)
Definition never_raises (agency_swarm : Swarm) : Prop :=
  ∀ history prompt, ∃ result, respond history prompt = inr result.

(** An agency that repeats the prompt, and one that is out of reach. *)
Definition echo_swarm : Swarm := λ history prompt, inr ("re: " +:+ prompt).

Definition broken_swarm : Swarm := λ history prompt, inl (OSError "Connection error.").

Definition fresh (lines : list string) : console :=
  {| stdin := lines; trace := [] |}.

(** A session that is a fixed run of prints, pauses and requests
    whose answers it does not use; with the lines it prints and the
    prompts it sends when every request is answered. *)
Inductive scripted `{agency_swarm : Swarm}
    : session unit → list string → list string → Prop :=
  | scripted_ret : scripted (mret ()) [] []
  | scripted_print line k lines prompts :
      scripted k lines prompts →
      scripted (print line ;; k) (line :: lines) prompts
  | scripted_sleep seconds k lines prompts :
      scripted k lines prompts →
      scripted (sleep seconds ;; k) lines prompts
  | scripted_ask prompt k lines prompts :
      scripted k lines prompts →
      scripted (get_completion prompt ≫= λ _, k) lines (prompt :: prompts).

(** What the two automated builds print and send, read off a run with
    the echoing agency. *)
Definition build_lines : list string :=
  printed (trace (@StartBuilding.automated_build echo_swarm (fresh [])).2).

Definition build_prompts : list string :=
  sent (trace (@StartBuilding.automated_build echo_swarm (fresh [])).2).

Definition node_build_lines : list string :=
  printed (trace (@StartBuildingNode.automated_build echo_swarm (fresh [])).2).

Definition node_build_prompts : list string :=
  sent (trace (@StartBuildingNode.automated_build echo_swarm (fresh [])).2).

(** ** After [main()] *)

(** How [main()] ends: it returns, raises an exception of class
    [Exception], is interrupted from the keyboard, or calls
    [sys.exit]. *)
Inductive main_result :=
  | MainReturns
  | MainRaises (e : exn)
  | MainInterrupted
  | MainExits (code : Z).

(** The [try] around [main()] in [start_building.py]: the exit
    status, and what is printed. *)
Definition start_building_handlers (r : main_result) : Z * list event :=
  match r with
  | MainReturns => (0%Z, [])
  | MainInterrupted =>
      (0%Z, [Print (String LF (String LF "👋 Build interrupted by user."))])
  | MainRaises e => (1%Z, [Print (String LF "❌ Error: " +:+ str_exn e)])
  | MainExits code => (code, [])
  end.

(** The [try] around [main()] in [start_building_nodejs.py]. *)
Definition start_building_nodejs_handlers (r : main_result) : Z * list event :=
  match r with
  | MainReturns => (0%Z, [])
  | MainInterrupted => (0%Z, [Print (String LF (String LF "👋 Interrupted"))])
  | MainRaises e => (0%Z, [Print (String LF "❌ Error: " +:+ str_exn e)])
  | MainExits code => (code, [])
  end.

(** A script from its first line to its exit status: start-up, then
    [main()] ending as [r], then the handlers. An exception nobody
    catches ends the process with status 1. *)
Definition exit_status (start : outcome) (handlers : main_result → Z * list event)
    (r : main_result) : Z :=
  match start with
  | Started _ => (handlers r).1
  | Exited code _ => code
  | Uncaught _ _ => 1%Z
  end.

(** ** Frame conditions *)

(** [m] keeps every entry of the file system other than the one at [p]. *)
Definition keeps_others {A} (p : string) (m : io A) : Prop :=
  ∀ fs q x, q ≠ p → fs !! q = Some x → (m fs).2 !! q = Some x.

(** [m] leaves every path other than [p] as it is, present or not. *)
Definition touches_only {A} (p : string) (m : io A) : Prop :=
  ∀ fs q, q ≠ p → (m fs).2 !! q = fs !! q.

(** A project directory that holds a file [notes.txt]. *)
Definition fs_with_notes : filesystem :=
  {[ posixpath.join PROJECT_ROOT "notes.txt" := File "hello" ]}.

(** * Properties *)

(** ** The dispatch graph *)

Section Search.
Variable g : list (string * string).
Variable r : string.

Lemma successors_edge a b : b ∈ successors g a → edge g a b.
Proof.
  unfold successors, edge. intros Hb.
  apply list_elem_of_fmap in Hb as ([a' b'] & -> & He).
  apply list_elem_of_filter in He as [Ha He]. simpl in *. by subst.
Qed.

Lemma expand_sound seen :
  Forall (reachable g r) seen → Forall (reachable g r) (expand g seen).
Proof.
  rewrite !Forall_forall. intros Hseen x Hx. unfold expand in Hx.
  apply elem_of_remove_dups, elem_of_app in Hx as [Hx | Hx]; [by apply Hseen |].
  apply list_elem_of_bind in Hx as (y & Hx & Hy).
  eapply rtc_r; [by apply Hseen | by apply successors_edge].
Qed.

Lemma search_sound n seen :
  Forall (reachable g r) seen → Forall (reachable g r) (search n g seen).
Proof.
  revert seen. induction n as [| n IH]; intros seen Hseen; simpl; [done |].
  by apply IH, expand_sound.
Qed.

Lemma reachable_from_sound b : b ∈ reachable_from g r → reachable g r b.
Proof.
  intros Hb. unfold reachable_from in Hb.
  assert (Forall (reachable g r) (search (length g) g [r])) as Hall.
  { apply search_sound. by constructor. }
  rewrite Forall_forall in Hall. by apply Hall.
Qed.

Lemma inbound_of_target b : b ∈ g.*2 → has_inbound g b.
Proof.
  intros Hb. apply list_elem_of_fmap in Hb as ([a b'] & -> & He).
  by exists a.
Qed.
End Search.

Lemma connected_check_sound f :
  connected_check f = true → connected_from_root f.
Proof.
  unfold connected_check, connected_from_root.
  destruct (root (agency f)) as [r |]; [| done].
  intros [Hr Hall]%andb_prop. exists r. split; [done |].
  split; [by apply bool_decide_eq_true in Hr |].
  intros b Hb Hne. rewrite forallb_forall in Hall.
  apply list_elem_of_In, Hall in Hb.
  apply orb_prop in Hb as [Hb | Hb].
  - by apply bool_decide_eq_true in Hb.
  - apply andb_prop in Hb as [Hreach Hin].
    apply bool_decide_eq_true in Hreach, Hin. split.
    + by apply reachable_from_sound.
    + by apply inbound_of_target.
Qed.

Lemma connected_no_orphan f : connected_from_root f → no_orphan f.
Proof.
  intros (r & Hroot & Hr & Hall) b Hb.
  destruct (decide (b = r)) as [-> | Hne].
  - left. unfold root in Hroot.
    destruct (entry_points (agency f)) as [| r' l]; [done |].
    injection Hroot as ->. apply list_elem_of_here.
  - right. by apply Hall.
Qed.

(** C6. In each of the two rosters the chart's entry point is
    ProjectManager, and every other declared role is reached from it by
    a path of dispatch edges and has an edge coming in; so no declared
    role is an orphan. *)
Theorem roster_connected_from_root :
  root PythonAgency.viral_video_agency = Some "ProjectManager" ∧
  root NodeAgency.viral_video_agency = Some "ProjectManager" ∧
  connected_from_root PythonAgency.file ∧
  connected_from_root NodeAgency.file ∧
  no_orphan PythonAgency.file ∧
  no_orphan NodeAgency.file.
Proof.
  assert (connected_from_root PythonAgency.file) as Hpy
    by (apply connected_check_sound; vm_compute; reflexivity).
  assert (connected_from_root NodeAgency.file) as Hjs
    by (apply connected_check_sound; vm_compute; reflexivity).
  split; [reflexivity |]. split; [reflexivity |].
  split; [exact Hpy |]. split; [exact Hjs |].
  split; by apply connected_no_orphan.
Qed.

(** C7. Each roster declares eight agents, and no two of them have the
    same name. *)
Theorem role_names_unique :
  length (roster PythonAgency.file) = 8 ∧
  NoDup (role_names PythonAgency.file) ∧
  length (roster NodeAgency.file) = 8 ∧
  NoDup (role_names NodeAgency.file).
Proof.
  split; [reflexivity |]. split; [| split; [reflexivity |]].
  - apply (bool_decide_unpack _). vm_compute. exact I.
  - apply (bool_decide_unpack _). vm_compute. exact I.
Qed.

(** C9. Every temperature declared in either file, for an agent or for
    the agency, is a binary64 number between 0 and 1. *)
Theorem temperatures_in_unit_interval :
  Forall (λ t, in_unit_interval t = true)
         (temperatures PythonAgency.file ++ temperatures NodeAgency.file).
Proof.
  repeat constructor.
Qed.

(** C10. Renaming the Python-target roles to their Node.js-target
    counterparts turns the roster into the roster and the chart's edges
    into the chart's edges, in the same order; so the two edge sets are
    equal, with the same root, seven edges from the root and six between
    workers. *)
Theorem topologies_agree :
  let py := PythonAgency.viral_video_agency in
  let js := NodeAgency.viral_video_agency in
  node_name <$> role_names PythonAgency.file = role_names NodeAgency.file ∧
  node_name <$> root py = root js ∧
  rename_edge <$> dispatch_edges py = dispatch_edges js ∧
  (∀ e, e ∈ dispatch_edges js ↔ ∃ e', e' ∈ dispatch_edges py ∧ e = rename_edge e') ∧
  rename_edge <$> root_edges py = root_edges js ∧
  rename_edge <$> worker_edges py = worker_edges js ∧
  length (root_edges py) = 7 ∧ length (worker_edges py) = 6 ∧
  length (root_edges js) = 7 ∧ length (worker_edges js) = 6.
Proof.
  intros py js.
  assert (rename_edge <$> dispatch_edges py = dispatch_edges js) as Hedges
    by (vm_compute; reflexivity).
  split; [vm_compute; reflexivity |]. split; [vm_compute; reflexivity |].
  split; [exact Hedges |]. split.
  { intros e. rewrite <- Hedges, list_elem_of_fmap.
    split; [intros (e' & -> & He') | intros (e' & He' & ->)]; eauto. }
  repeat split; vm_compute; reflexivity.
Qed.

(** ** Text-mode newlines *)

Lemma app_empty_l (s : string) : EmptyString +:+ s = s.
Proof. reflexivity. Qed.

Lemma app_String a (s t : string) : String a s +:+ t = String a (s +:+ t).
Proof. reflexivity. Qed.

Lemma newlines_roundtrip os c :
  has_CR c = false → newlines_in (newlines_out os c) = c.
Proof.
  induction c as [| a c IH]; [done |].
  simpl. intros [Ha Hc]%orb_false_elim.
  apply bool_decide_eq_false in Ha. specialize (IH Hc).
  destruct (decide (a = LF)) as [-> | Hlf].
  - destruct os; unfold linesep; rewrite ?app_String, app_empty_l; simpl;
      by rewrite IH.
  - simpl. rewrite decide_False by done. by rewrite IH.
Qed.

Lemma has_CR_LF s : has_CR (String LF s) = has_CR s.
Proof. reflexivity. Qed.

(** What is read never holds a carriage return. *)
Lemma newlines_in_no_CR s : has_CR (newlines_in s) = false.
Proof.
  assert (∀ n s, (String.length s ≤ n)%nat → has_CR (newlines_in s) = false)
    as Hn.
  { clear s. induction n as [| n IH]; intros [| a s] Hlen; simpl in Hlen;
      [done | lia | done |].
    cbn [newlines_in]. destruct (decide (a = CR)) as [-> | Ha].
    - destruct s as [| b s]; [done |].
      destruct (decide (b = LF)); rewrite has_CR_LF; apply IH;
        simpl in *; lia.
    - cbn [has_CR]. rewrite bool_decide_eq_false_2 by done. apply IH. lia. }
  by apply (Hn (String.length s)).
Qed.

Lemma has_CR_not_read c s : has_CR c = true → newlines_in s ≠ c.
Proof.
  intros Hc <-. by rewrite newlines_in_no_CR in Hc.
Qed.

(** ** The file tool *)

Section FileTool.
Context `{H : Host}.

(** Emptying a file, writing [c] to it, and going on with [k]. *)
Lemma open_w_write {A} p c (k : io A) fs :
  (open_w p ;; f_write p (Some c) ;; k) fs =
    match open_w p fs with
    | (inr _, _) => k (<[p := File (newlines_out os_name c)]> fs)
    | (inl e, _) => (inl e, fs)
    end.
Proof.
  unfold mbind, io_bind, open_w, f_write.
  destruct (fs !! p) as [[| old] |] eqn:Hp; [done | |].
  - by rewrite lookup_insert_eq, insert_insert_eq.
  - destruct (decide (p = EmptyString)); [done |].
    destruct (parent_check fs p); [done |].
    by rewrite lookup_insert_eq, insert_insert_eq.
Qed.

(** Once a file is there, opening it for writing succeeds. *)
Lemma open_w_file p data fs :
  fs !! p = Some (File data) → ∃ fs', open_w p fs = (inr (), fs').
Proof. unfold open_w. intros ->. eauto. Qed.

(** A successful create leaves the content, with its line feeds
    translated, at the joined path. *)
Lemma create_success p content fs fs1 :
  FileOperationTool_run "create" p content fs
    = (PyStr ("Created file: " +:+ p), fs1) →
  fs1 !! path_join PROJECT_ROOT p
    = Some (File (newlines_out os_name (default EmptyString content))).
Proof.
  unfold FileOperationTool_run, try_except.
  rewrite decide_True by done.
  set (full := path_join PROJECT_ROOT p).
  unfold mbind at 1. unfold io_bind at 1.
  destruct (os_makedirs (path_dirname full) fs) as [[e | []] fs0].
  { by intros [=]. }
  rewrite open_w_write.
  destruct (open_w full fs0) as [[e | []] fs'].
  { by intros [=]. }
  intros [= <-]. apply lookup_insert_eq.
Qed.

Lemma io_bind_inr {A B} (m : io A) (k : A → io B) fs b fs' :
  (m ≫= k) fs = (inr b, fs') →
  ∃ a fs0, m fs = (inr a, fs0) ∧ k a fs0 = (inr b, fs').
Proof.
  unfold mbind, io_bind. destruct (m fs) as [[e | a] fs0]; [done |]. eauto.
Qed.

(** The known operations answer with text. *)
Lemma FileOperationTool_run_known operation p content fs :
  operation ∈ ["create"; "read"; "write"; "append"] →
  is_text (FileOperationTool_run operation p content fs).1 = true.
Proof.
  intros Hop. unfold FileOperationTool_run, try_except.
  repeat (apply elem_of_cons in Hop as [-> | Hop]);
    [.. | by apply elem_of_nil in Hop];
    repeat (first [rewrite decide_True by done | rewrite decide_False by done]);
    match goal with
    | |- context [match ?m with _ => _ end] =>
        destruct m as [[e | v] fs'] eqn:Hrun
    end; try done;
    repeat (apply io_bind_inr in Hrun as (? & ? & _ & Hrun));
    by injection Hrun as <- _.
Qed.

(** Any other operation falls through every branch. *)
Lemma FileOperationTool_run_unknown operation p content fs :
  operation ∉ ["create"; "read"; "write"; "append"] →
  FileOperationTool_run operation p content fs = (PyNone, fs).
Proof.
  intros Hop. unfold FileOperationTool_run, try_except.
  rewrite !decide_False; [done | ..]; intros ->; apply Hop;
    repeat first [apply list_elem_of_here | apply list_elem_of_further].
Qed.



End FileTool.




(** C2. An operation the file tool does not know falls through every
    branch of [run]: the answer is [None], not text. The task tracker
    tool, next to it, answers such an input with a text. *)
Theorem FileOperationTool_run_delete_is_None :
  @FileOperationTool_run posix_host "delete" "notes.txt" None ∅ = (PyNone, ∅) ∧
  is_text (@FileOperationTool_run posix_host "delete" "notes.txt" None ∅).1
    = false ∧
  @TaskMasterTool_run posix_host "11.1" "delete" None None
    = PyStr "Unknown action: delete".
Proof.
  split; [| split; [| reflexivity]].
  - apply FileOperationTool_run_unknown.
    intros Hin. by repeat (apply elem_of_cons in Hin as [[=] | Hin]);
      apply elem_of_nil in Hin.
  - rewrite FileOperationTool_run_unknown; [done |].
    intros Hin. by repeat (apply elem_of_cons in Hin as [[=] | Hin]);
      apply elem_of_nil in Hin.
Qed.

(** ** The shell tools *)

Section ShellTools.
Context `{H : Host}.

Lemma process_text_ok result :
  returncode result = 0%Z → process_text result = stdout result.
Proof. intros Hrc. unfold process_text. by rewrite decide_True. Qed.

Lemma process_text_failed result :
  returncode result ≠ 0%Z → process_text result = "Error: " +:+ stderr result.
Proof. intros Hrc. unfold process_text. by rewrite decide_False. Qed.

(** C5. The shell tool always answers with text. When the process ran
    in the joined working directory and ended with code 0 the answer is
    its standard output; when it ended with another code the answer is
    its standard error behind the marker [Error: ]. *)
Theorem NodeExecutorTool_run_result command working_dir :
  is_text (NodeExecutorTool_run command working_dir) = true ∧
  ∀ wd result,
    working_dir = Some wd →
    subprocess_run command (Some (path_join PROJECT_ROOT wd)) = inr result →
    (returncode result = 0%Z →
       NodeExecutorTool_run command working_dir = PyStr (stdout result)) ∧
    (returncode result ≠ 0%Z →
       NodeExecutorTool_run command working_dir
         = PyStr ("Error: " +:+ stderr result) ∧
       is_error_text (NodeExecutorTool_run command working_dir) = true).
Proof.
  unfold NodeExecutorTool_run. split.
  - by destruct (_ ≫= _).
  - intros wd result -> Hrun. unfold path_join_opt, mbind, exn_bind.
    rewrite Hrun. split; intros Hrc.
    + by rewrite process_text_ok.
    + by rewrite process_text_failed.
Qed.

(** C8 (amended). The task tracker tool builds a command for the
    actions show, set-status and update-subtask, and for no other. For
    these the answer is the tracker's standard output, or an error text
    when the tracker fails or cannot be started; for any other action
    the answer is the text [Unknown action: ] and the action. The answer
    is always text. *)
Theorem TaskMasterTool_run_actions task_id action status notes :
  (is_Some (TaskMasterTool_cmd task_id action status notes) ↔
     action ∈ ["show"; "set-status"; "update-subtask"]) ∧
  is_text (TaskMasterTool_run task_id action status notes) = true ∧
  (∀ cmd, TaskMasterTool_cmd task_id action status notes = Some cmd →
     TaskMasterTool_run task_id action status notes =
       match subprocess_run cmd None with
       | inr result =>
           PyStr (if decide (returncode result = 0%Z) then stdout result
                  else "Error: " +:+ stderr result)
       | inl e => PyStr ("Error executing command: " +:+ str_exn e)
       end) ∧
  (TaskMasterTool_cmd task_id action status notes = None →
     TaskMasterTool_run task_id action status notes
       = PyStr ("Unknown action: " +:+ action)).
Proof.
  split; [| split; [| split]].
  - unfold TaskMasterTool_cmd. rewrite !elem_of_cons, elem_of_nil.
    repeat case_decide; split; intros Hx; eauto;
      try (by destruct Hx as [? [=]]); tauto.
  - unfold TaskMasterTool_run.
    destruct (TaskMasterTool_cmd _ _ _ _); [| done].
    by destruct (subprocess_run _ _).
  - intros cmd Hcmd. unfold TaskMasterTool_run. by rewrite Hcmd.
  - intros Hcmd. unfold TaskMasterTool_run. by rewrite Hcmd.
Qed.

End ShellTools.

(** The shell tool on a command that fails. *)
Lemma NodeExecutorTool_run_result_witness :
  @NodeExecutorTool_run posix_host "exit 1" (Some ".")
    = PyStr ("Error: " +:+ EmptyString) ∧
  is_error_text (@NodeExecutorTool_run posix_host "exit 1" (Some ".")) = true.
Proof.
  apply (proj2 (@NodeExecutorTool_run_result posix_host "exit 1" (Some "."))
           "."
           {| returncode := 1; stdout := EmptyString; stderr := EmptyString |}
           eq_refl eq_refl).
  discriminate.
Defined.

(** C8, as stated, names update-note where the code has
    update-subtask: update-note is answered with [Unknown action: ] and
    no command is run, while update-subtask, outside the stated set, is
    passed to the tracker and its output returned. *)
Lemma TaskMasterTool_actions_counterexample :
  @TaskMasterTool_run posix_host "11.1" "update-note" None (Some "tested")
    = PyStr "Unknown action: update-note" ∧
  TaskMasterTool_cmd "11.1" "update-note" None (Some "tested") = None ∧
  TaskMasterTool_cmd "11.1" "update-subtask" None (Some "tested")
    = Some ("task-master update-subtask --id=11.1 --prompt="
              +:+ dquote +:+ "tested" +:+ dquote) ∧
  @TaskMasterTool_run posix_host "11.1" "update-subtask" None (Some "tested")
    = PyStr ("done" +:+ String LF EmptyString) ∧
  ¬ (∀ task_id action status notes,
       is_Some (TaskMasterTool_cmd task_id action status notes) ↔
       action ∈ ["show"; "set-status"; "update-note"]).
Proof.
  repeat (split; [reflexivity |]).
  intros Hall.
  destruct (Hall "11.1" "update-note" None (Some "tested")) as [_ Hin].
  destruct Hin as [cmd [=]].
  apply list_elem_of_further, list_elem_of_further, list_elem_of_here.
Qed.

(** ** Start-up *)

Lemma missing_keys_elem env key :
  key ∈ missing_keys env ↔
  truthy (getenv env key) = false ∧ key ∈ required_keys.
Proof. unfold missing_keys. by rewrite list_elem_of_filter. Qed.

(** [run_agency.py] always reaches [main()], having warned once if a
    key is missing and not at all otherwise. *)
Lemma run_agency_starts env :
  starts (run_agency env) = true ∧
  warnings (run_agency env) = if decide (missing_keys env = []) then 0 else 1.
Proof.
  split; [done |].
  unfold run_agency, warnings, trace_of. by case_decide.
Qed.

(** The two builders with the model key set: an empty key ends the
    script with status 1, any other key lets it start, silently. *)
Lemma start_building_key env key :
  getenv env "OPENAI_API_KEY" = Some key →
  if decide (key = EmptyString)
  then start_building env =
         Exited 1
           [SetOpenaiKey (Some EmptyString); Chdir PROJECT_ROOT;
            Print "❌ Error: OPENAI_API_KEY not found in environment variables.";
            Print "Please set it in your .env file."]
  else start_building env =
         Started [SetOpenaiKey (Some key); Chdir PROJECT_ROOT; CallMain].
Proof.
  intros Hkey. unfold start_building, environ_set, getenv in *.
  rewrite Hkey, lookup_insert_eq. simpl.
  case_decide as Hempty.
  - subst key. by rewrite bool_decide_eq_true_2.
  - by rewrite bool_decide_eq_false_2.
Qed.

Lemma start_building_nodejs_key env key :
  getenv env "OPENAI_API_KEY" = Some key →
  if decide (key = EmptyString)
  then start_building_nodejs env =
         Exited 1
           [SetOpenaiKey (Some EmptyString); Chdir PROJECT_ROOT;
            Print "❌ OPENAI_API_KEY not found in .env"]
  else start_building_nodejs env =
         Started [SetOpenaiKey (Some key); Chdir PROJECT_ROOT; CallMain].
Proof.
  intros Hkey. unfold start_building_nodejs, environ_set, getenv in *.
  rewrite Hkey, lookup_insert_eq. simpl.
  case_decide as Hempty.
  - subst key. by rewrite bool_decide_eq_true_2.
  - by rewrite bool_decide_eq_false_2.
Qed.




(** ** More on the file tool *)

Section FileToolFrame.
Context `{H : Host}.

Lemma touches_only_keeps {A} p (m : io A) : touches_only p m → keeps_others p m.
Proof. intros Hm fs q x Hq Hx. by rewrite Hm. Qed.

Lemma touches_only_ret {A} p (a : A) : touches_only p (mret a).
Proof. done. Qed.

Lemma touches_only_bind {A B} p (m : io A) (k : A → io B) :
  touches_only p m → (∀ a, touches_only p (k a)) → touches_only p (m ≫= k).
Proof.
  intros Hm Hk fs q Hq. unfold mbind, io_bind.
  specialize (Hm fs q Hq). destruct (m fs) as [[e | a] fs']; [done |].
  simpl in Hm. by rewrite Hk.
Qed.

Lemma keeps_others_bind {A B} p (m : io A) (k : A → io B) :
  keeps_others p m → (∀ a, keeps_others p (k a)) → keeps_others p (m ≫= k).
Proof.
  intros Hm Hk fs q x Hq Hx. unfold mbind, io_bind.
  specialize (Hm fs q x Hq Hx). destruct (m fs) as [[e | a] fs']; [done |].
  by apply Hk.
Qed.

Lemma open_w_touches p : touches_only p (open_w p).
Proof.
  intros fs q Hq. unfold open_w.
  repeat case_match; simpl; by rewrite ?lookup_insert_ne.
Qed.

Lemma open_a_touches p : touches_only p (open_a p).
Proof.
  intros fs q Hq. unfold open_a.
  repeat case_match; simpl; by rewrite ?lookup_insert_ne.
Qed.

Lemma f_write_touches p content : touches_only p (f_write p content).
Proof.
  intros fs q Hq. unfold f_write.
  repeat case_match; simpl; by rewrite ?lookup_insert_ne.
Qed.

Lemma read_text_same p fs : (read_text p fs).2 = fs.
Proof. unfold read_text. by repeat case_match. Qed.

Lemma os_mkdir_grows d fs : fs ⊆ (os_mkdir d fs).2.
Proof.
  unfold os_mkdir. destruct (fs !! d) eqn:Hd; [done |].
  destruct (parent_check fs d); [done |]. by apply insert_subseteq.
Qed.

Lemma makedirs_from_grows n d fs : fs ⊆ (makedirs_from n d fs).2.
Proof.
  revert d fs. induction n as [| n IH]; intros d fs; simpl.
  - pose proof (os_mkdir_grows d fs) as Hmk.
    destruct (os_mkdir d fs) as [[e | []] fs2]; [| done].
    simpl in Hmk. by repeat case_match.
  - case_decide as Hhead.
    + pose proof (IH (path_dirname d) fs) as Hrec.
      destruct (makedirs_from n (path_dirname d) fs) as [[e | []] fs1];
        simpl in Hrec.
      * destruct e; try done.
        pose proof (os_mkdir_grows d fs1) as Hmk.
        destruct (os_mkdir d fs1) as [[e | []] fs2]; simpl in Hmk;
          repeat case_match; simpl; by etrans.
      * pose proof (os_mkdir_grows d fs1) as Hmk.
        destruct (os_mkdir d fs1) as [[e | []] fs2]; simpl in Hmk;
          repeat case_match; simpl; by etrans.
    + pose proof (os_mkdir_grows d fs) as Hmk.
      destruct (os_mkdir d fs) as [[e | []] fs2]; simpl in Hmk;
        by repeat case_match.
Qed.

Lemma os_makedirs_keeps p d : keeps_others p (os_makedirs d).
Proof.
  intros fs q x _ Hx. unfold os_makedirs.
  by eapply lookup_weaken, makedirs_from_grows.
Qed.

End FileToolFrame.

Section FileToolMore.
Context `{H : Host}.

Lemma try_except_fs {A} (m : io A) h fs : (try_except m h fs).2 = (m fs).2.
Proof. unfold try_except. by destruct (m fs) as [[e | a] fs']. Qed.

(** The file tool answers with text exactly for the four operations
    it knows. *)
Theorem FileOperationTool_run_text_iff operation p content fs :
  is_text (FileOperationTool_run operation p content fs).1 = true ↔
  operation ∈ ["create"; "read"; "write"; "append"].
Proof.
  split.
  - intros Htext.
    destruct (decide (operation ∈ ["create"; "read"; "write"; "append"]))
      as [Hin | Hout]; [done |].
    by rewrite FileOperationTool_run_unknown in Htext.
  - apply FileOperationTool_run_known.
Qed.


End FileToolMore.

Section FileToolCompose.
Context `{H : Host}.

Lemma app_assoc_s (a b c : string) : (a +:+ b) +:+ c = a +:+ (b +:+ c).
Proof. induction a as [| x a IH]; [done |]. by rewrite !app_String, IH. Qed.

Lemma newlines_out_app os a b :
  newlines_out os (a +:+ b) = newlines_out os a +:+ newlines_out os b.
Proof.
  induction a as [| x a IH]; [done |].
  rewrite app_String. simpl. rewrite IH.
  case_decide; [by rewrite app_assoc_s | done].
Qed.

Lemma has_CR_app a b : has_CR (a +:+ b) = has_CR a || has_CR b.
Proof.
  induction a as [| x a IH]; [done |].
  rewrite app_String. simpl. by rewrite IH, orb_assoc.
Qed.

(** The three operations on a path where a file is. *)
Lemma read_existing p content data fs :
  fs !! path_join PROJECT_ROOT p = Some (File data) →
  FileOperationTool_run "read" p content fs = (PyStr (newlines_in data), fs).
Proof.
  intros Hfile. unfold FileOperationTool_run, try_except.
  rewrite decide_False, decide_True by done.
  unfold mbind, io_bind, read_text. by rewrite Hfile.
Qed.

Lemma write_existing p c data fs :
  fs !! path_join PROJECT_ROOT p = Some (File data) →
  FileOperationTool_run "write" p (Some c) fs =
    (PyStr ("Updated file: " +:+ p),
     <[path_join PROJECT_ROOT p := File (newlines_out os_name c)]> fs).
Proof.
  intros Hfile. unfold FileOperationTool_run, try_except.
  rewrite !decide_False, decide_True by done.
  rewrite open_w_write. unfold open_w. by rewrite Hfile.
Qed.

Lemma append_existing p c data fs :
  fs !! path_join PROJECT_ROOT p = Some (File data) →
  FileOperationTool_run "append" p (Some c) fs =
    (PyStr ("Appended to file: " +:+ p),
     <[path_join PROJECT_ROOT p :=
         File (data +:+ newlines_out os_name c)]> fs).
Proof.
  intros Hfile. unfold FileOperationTool_run, try_except.
  rewrite !decide_False, decide_True by done.
  unfold mbind, io_bind, open_a, f_write. by rewrite Hfile, Hfile.
Qed.


(** A write without content empties the file that is there and
    answers with an error text; an append without content answers with
    the same error text and leaves the file as it is. *)
Theorem write_None_empties_file p data fs :
  fs !! path_join PROJECT_ROOT p = Some (File data) →
  FileOperationTool_run "write" p None fs =
    (PyStr "Error: write() argument must be str, not None",
     <[path_join PROJECT_ROOT p := File EmptyString]> fs) ∧
  FileOperationTool_run "append" p None fs =
    (PyStr "Error: write() argument must be str, not None", fs).
Proof.
  intros Hfile. unfold FileOperationTool_run, try_except.
  rewrite !(decide_False (P := _ = "create")) by done.
  rewrite !(decide_False (P := _ = "read")) by done.
  rewrite decide_True by done.
  rewrite (decide_False (P := "append" = "write")) by done.
  rewrite decide_True by done.
  unfold mbind, io_bind, open_w, open_a, f_write. by rewrite Hfile.
Qed.

(** After a create that answered with its confirmation, an append
    succeeds, and a read then answers with the two contents one after
    the other when neither holds a carriage return. *)
Theorem create_append_read p c1 c2 fs fs1 :
  FileOperationTool_run "create" p (Some c1) fs
    = (PyStr ("Created file: " +:+ p), fs1) →
  ∃ fs2,
    FileOperationTool_run "append" p (Some c2) fs1
      = (PyStr ("Appended to file: " +:+ p), fs2) ∧
    ∃ s, FileOperationTool_run "read" p None fs2 = (PyStr s, fs2) ∧
         (has_CR c1 = false → has_CR c2 = false → s = c1 +:+ c2).
Proof.
  intros Hfile%create_success. simpl in Hfile.
  eexists. split; [by eapply append_existing |].
  eexists. split; [eapply read_existing, lookup_insert_eq |].
  intros Hc1 Hc2. rewrite <- newlines_out_app.
  apply newlines_roundtrip. by rewrite has_CR_app, Hc1, Hc2.
Qed.

(** After a create that answered with its confirmation, a write
    succeeds and replaces the content: the last write wins. *)
Theorem create_write_read p c1 c2 fs fs1 :
  FileOperationTool_run "create" p (Some c1) fs
    = (PyStr ("Created file: " +:+ p), fs1) →
  ∃ fs2,
    FileOperationTool_run "write" p (Some c2) fs1
      = (PyStr ("Updated file: " +:+ p), fs2) ∧
    ∃ s, FileOperationTool_run "read" p None fs2 = (PyStr s, fs2) ∧
         (has_CR c2 = false → s = c2).
Proof.
  intros Hfile%create_success. simpl in Hfile.
  eexists. split; [by eapply write_existing |].
  eexists. split; [eapply read_existing, lookup_insert_eq |].
  apply newlines_roundtrip.
Qed.

(** A create without content, where it answers with its confirmation,
    leaves an empty file: a read answers with the empty text. *)
Theorem create_None_is_empty p fs fs1 :
  FileOperationTool_run "create" p None fs
    = (PyStr ("Created file: " +:+ p), fs1) →
  FileOperationTool_run "read" p None fs1 = (PyStr EmptyString, fs1).
Proof.
  intros Hfile%create_success. simpl in Hfile.
  by rewrite (read_existing _ _ _ _ Hfile).
Qed.

End FileToolCompose.


(** ** More on the shell tools *)

(** Without a working directory the shell tool runs nothing: whatever
    the command and the host's shell, the answer is the same error
    text. *)
Theorem NodeExecutorTool_run_no_working_dir (H1 H2 : Host) command1 command2 :
  @NodeExecutorTool_run H1 command1 None = @NodeExecutorTool_run H2 command2 None ∧
  is_error_text (@NodeExecutorTool_run H1 command1 None) = true.
Proof. done. Qed.

Lemma TaskMasterTool_cmd_unknown task_id action status notes :
  action ∉ ["show"; "set-status"; "update-subtask"] →
  TaskMasterTool_cmd task_id action status notes = None.
Proof.
  intros Hout. unfold TaskMasterTool_cmd.
  rewrite !decide_False; [done | ..]; intros ->; apply Hout;
    repeat first [apply list_elem_of_here | apply list_elem_of_further].
Qed.

(** An action the task tracker tool does not know is answered without
    running anything, the same on every host, and the answer does not
    carry the marker [Error]. *)
Theorem TaskMasterTool_run_unknown_unmarked (H1 H2 : Host)
    task_id action status notes :
  action ∉ ["show"; "set-status"; "update-subtask"] →
  @TaskMasterTool_run H1 task_id action status notes
    = @TaskMasterTool_run H2 task_id action status notes ∧
  is_error_text (@TaskMasterTool_run H1 task_id action status notes) = false.
Proof.
  intros Hout. unfold TaskMasterTool_run.
  by rewrite (TaskMasterTool_cmd_unknown _ _ _ _ Hout).
Qed.

(** ** More on start-up *)

Lemma truthy_Some o : truthy o = true ↔ ∃ v, o = Some v ∧ v ≠ EmptyString.
Proof.
  destruct o as [v |]; simpl.
  - rewrite negb_true_iff, bool_decide_eq_false. split.
    + intros Hv. by exists v.
    + by intros (v' & [= <-] & Hv).
  - split; [done | by intros (v & [=] & _)].
Qed.


(** The two builders reach [main()] exactly when the model key is set
    and not empty, and nothing else in the environment matters to
    them. *)
Theorem builders_read_model_key_only env :
  starts (start_building env) = truthy (getenv env "OPENAI_API_KEY") ∧
  starts (start_building_nodejs env) = truthy (getenv env "OPENAI_API_KEY") ∧
  ∀ env', getenv env' "OPENAI_API_KEY" = getenv env "OPENAI_API_KEY" →
    start_building env' = start_building env ∧
    start_building_nodejs env' = start_building_nodejs env.
Proof.
  unfold start_building, start_building_nodejs, environ_set, getenv.
  split; [| split].
  - destruct (env !! "OPENAI_API_KEY") as [v |]; [| done].
    rewrite lookup_insert_eq. by destruct (truthy (Some v)).
  - destruct (env !! "OPENAI_API_KEY") as [v |]; [| done].
    rewrite lookup_insert_eq. by destruct (truthy (Some v)).
  - intros env' ->.
    destruct (env !! "OPENAI_API_KEY") as [v |]; [| done].
    by rewrite !lookup_insert_eq.
Qed.



(** ** Sessions at the console *)

Local Open Scope list_scope.

Lemma sent_app t1 t2 : sent (t1 ++ t2) = (sent t1 ++ sent t2)%list.
Proof. apply omap_app. Qed.

Lemma printed_app t1 t2 :
  printed (t1 ++ t2) = (printed t1 ++ printed t2)%list.
Proof. apply omap_app. Qed.

Section Loops.
Context `{agency_swarm : Swarm}.
Hypothesis Hanswers : never_raises agency_swarm.

Lemma interactive_loop_sends lines t :
  sent (trace (StartBuilding.interactive_loop lines t).2)
    = (sent t ++ filter (λ command, command ≠ EmptyString)
                   (before_exit lines))%list ∧
  (StartBuilding.interactive_loop lines t).1
    = if types_exit lines then inr () else inl EOFError.
Proof.
  revert t. induction lines as [| line rest IH]; intros t; simpl.
  - by rewrite sent_app, !app_nil_r.
  - destruct (is_exit (strip line)) eqn:Hexit; simpl.
    + by rewrite !sent_app, !app_nil_r.
    + case_decide as Hempty.
      * destruct (IH (t ++ [Asked "📝 Enter command: " line])) as [-> ->].
        rewrite sent_app, app_nil_r, Hempty.
        by rewrite filter_cons_False by (by intros []).
      * unfold mbind, session_bind, print, get_completion, record; simpl.
        match goal with |- context [respond ?h ?p] =>
          destruct (Hanswers h p) as [result ->] end; simpl.
        match goal with |- context [StartBuilding.interactive_loop rest ?t'] =>
          destruct (IH t') as [-> ->] end.
        rewrite !sent_app, !app_nil_r; simpl.
        by rewrite filter_cons_True, <- app_assoc by done.
Qed.

Lemma node_interactive_loop_sends lines t :
  sent (trace (StartBuildingNode.interactive_loop lines t).2)
    = (sent t ++ before_exit lines)%list ∧
  (StartBuildingNode.interactive_loop lines t).1
    = if types_exit lines then inr () else inl EOFError.
Proof.
  revert t. induction lines as [| line rest IH]; intros t; simpl.
  - by rewrite sent_app, !app_nil_r.
  - destruct (is_exit (strip line)) eqn:Hexit; simpl.
    + by rewrite !sent_app, !app_nil_r.
    + unfold mbind, session_bind, print, get_completion, record; simpl.
      match goal with |- context [respond ?h ?p] =>
        destruct (Hanswers h p) as [result ->] end; simpl.
      match goal with |- context [StartBuildingNode.interactive_loop rest ?t'] =>
        destruct (IH t') as [-> ->] end.
      rewrite !sent_app, !app_nil_r; simpl.
      by rewrite <- app_assoc.
Qed.

End Loops.

Lemma echo_swarm_answers : never_raises echo_swarm.
Proof. intros history prompt. by eexists. Qed.

(** In the interactive mode of [start_building.py], with an agency
    that answers, the prompts sent are the commands typed before the
    first exit or quit, stripped, the blank ones left out; the mode
    returns if exit or quit is typed and stops at the end of input
    otherwise. *)
Theorem interactive_mode_sends `{agency_swarm : Swarm} (c : console) :
  never_raises agency_swarm →
  sent (trace (StartBuilding.interactive_mode c).2)
    = sent (trace c)
      ++ filter (λ command, command ≠ EmptyString) (before_exit (stdin c)) ∧
  (StartBuilding.interactive_mode c).1
    = if types_exit (stdin c) then inr () else inl EOFError.
Proof.
  intros Hanswers. unfold StartBuilding.interactive_mode, StartBuilding.while_true.
  unfold mbind, session_bind, print, record; simpl.
  match goal with |- context [StartBuilding.interactive_loop _ ?t] =>
    destruct (interactive_loop_sends Hanswers (stdin c) t) as [Hsent Hend] end.
  match type of Hend with (?r).1 = _ => destruct r as [[s | []] c'] end;
    simpl in *; rewrite Hsent, <- Hend, !sent_app, !app_nil_r; done.
Qed.

(** In the interactive mode of [start_building_nodejs.py], with an
    agency that answers, every command typed before the first exit or
    quit is sent, stripped, a blank line as an empty prompt. *)
Theorem node_interactive_sends `{agency_swarm : Swarm} (c : console) :
  never_raises agency_swarm →
  sent (trace (StartBuildingNode.while_true c).2)
    = sent (trace c) ++ before_exit (stdin c) ∧
  (StartBuildingNode.while_true c).1
    = (if types_exit (stdin c) then inr () else inl EOFError) ∧
  (∀ line rest, stdin c = line :: rest → strip line = EmptyString →
     EmptyString ∈ sent (trace (StartBuildingNode.while_true c).2)).
Proof.
  intros Hanswers. unfold StartBuildingNode.while_true.
  destruct (node_interactive_loop_sends Hanswers (stdin c) (trace c))
    as [Hsent Hend].
  split; [done |]. split; [done |].
  intros line rest Hstdin Hblank. rewrite Hsent, Hstdin. simpl.
  rewrite Hblank. apply elem_of_app. right. apply list_elem_of_here.
Qed.

Lemma interactive_mode_sends_witness :
  sent (trace (@StartBuilding.interactive_mode echo_swarm
                 (fresh ["hello"; "   "; " EXIT "; "more"])).2)
    = ["hello"] ∧
  (@StartBuilding.interactive_mode echo_swarm
     (fresh ["hello"; "   "; " EXIT "; "more"])).1 = inr ().
Proof.
  apply (@interactive_mode_sends echo_swarm
           (fresh ["hello"; "   "; " EXIT "; "more"])).
  intros history prompt. by eexists.
Defined.

Lemma node_interactive_sends_witness :
  sent (trace (@StartBuildingNode.while_true echo_swarm
                 (fresh ["hello"; "   "; " EXIT "; "more"])).2)
    = ["hello"; EmptyString] ∧
  (@StartBuildingNode.while_true echo_swarm
     (fresh ["hello"; "   "; " EXIT "; "more"])).1 = inr ().
Proof.
  destruct (@node_interactive_sends echo_swarm
              (fresh ["hello"; "   "; " EXIT "; "more"])) as (Hsent & Hend & _).
  - intros history prompt. by eexists.
  - split; [exact Hsent | exact Hend].
Defined.

(** ** The menus *)

Section Menus.
Context `{agency_swarm : Swarm}.

Lemma not_a_choice choice k :
  choice ∉ ["1"; "2"; "3"; "4"] → k ∈ ["1"; "2"; "3"; "4"] → choice ≠ k.
Proof. intros Hout Hk ->. by apply Hout. Qed.

Lemma not_a_choice_all choice :
  choice ∉ ["1"; "2"; "3"; "4"] →
  choice ≠ "1" ∧ choice ≠ "2" ∧ choice ≠ "3" ∧ choice ≠ "4".
Proof.
  intros Hout. repeat split; apply not_a_choice; try done;
    repeat first [apply list_elem_of_here | apply list_elem_of_further].
Qed.

Lemma run_agency_invalid line rest :
  strip line ∉ ["1"; "2"; "3"; "4"] →
  ∃ t, RunAgency.main (fresh (line :: rest))
         = (inl (SystemExit 1),
            {| stdin := rest;
               trace := t ++ [Printed "Invalid choice. Exiting."] |}) ∧
       sent t = [].
Proof.
  intros (H1 & H2 & H3 & H4)%not_a_choice_all.
  unfold RunAgency.main, fresh.
  unfold mbind, session_bind, mret, session_ret, print, input, sys_exit, record.
  cbn [stdin trace].
  repeat case_decide; try done. eexists. split; reflexivity.
Qed.

Lemma start_building_invalid line rest :
  strip line ∉ ["1"; "2"; "3"; "4"] →
  ∃ t, StartBuilding.main (fresh (line :: rest))
         = (inr (),
            {| stdin := rest; trace := t ++ [Printed "Invalid choice."] |}) ∧
       sent t = [].
Proof.
  intros (H1 & H2 & H3 & H4)%not_a_choice_all.
  unfold StartBuilding.main, StartBuilding.print_header, fresh.
  unfold mbind, session_bind, mret, session_ret, print, input, record.
  cbn [stdin trace].
  repeat case_decide; try done. eexists. split; reflexivity.
Qed.

Lemma start_building_nodejs_invalid line rest :
  strip line ∉ ["1"; "2"; "3"; "4"] →
  ∃ t, StartBuildingNode.main (fresh (line :: rest))
         = (inr (),
            {| stdin := rest;
               trace := t ++ [Asked (String LF "Choice (1-4): ") line] |}) ∧
       sent t = [].
Proof.
  intros (H1 & H2 & H3 & H4)%not_a_choice_all.
  unfold StartBuildingNode.main, StartBuildingNode.print_header, fresh.
  unfold mbind, session_bind, mret, session_ret, print, input, record.
  cbn [stdin trace].
  repeat case_decide; try done. eexists. split; reflexivity.
Qed.

(** A choice that is none of 1 to 4, once stripped, reaches no
    agency. [run_agency.py] prints [Invalid choice. Exiting.] and
    calls [sys.exit(1)]; [start_building.py] prints [Invalid choice.]
    and returns; [start_building_nodejs.py] returns without a word. *)
Theorem invalid_choice line rest :
  strip line ∉ ["1"; "2"; "3"; "4"] →
  ((RunAgency.main (fresh (line :: rest))).1 = inl (SystemExit 1) ∧
   last (trace (RunAgency.main (fresh (line :: rest))).2)
     = Some (Printed "Invalid choice. Exiting.") ∧
   sent (trace (RunAgency.main (fresh (line :: rest))).2) = []) ∧
  ((StartBuilding.main (fresh (line :: rest))).1 = inr () ∧
   last (trace (StartBuilding.main (fresh (line :: rest))).2)
     = Some (Printed "Invalid choice.") ∧
   sent (trace (StartBuilding.main (fresh (line :: rest))).2) = []) ∧
  ((StartBuildingNode.main (fresh (line :: rest))).1 = inr () ∧
   last (trace (StartBuildingNode.main (fresh (line :: rest))).2)
     = Some (Asked (String LF "Choice (1-4): ") line) ∧
   sent (trace (StartBuildingNode.main (fresh (line :: rest))).2) = []).
Proof.
  intros Hout.
  destruct (run_agency_invalid line rest Hout) as (t1 & -> & H1).
  destruct (start_building_invalid line rest Hout) as (t2 & -> & H2).
  destruct (start_building_nodejs_invalid line rest Hout) as (t3 & -> & H3).
  cbn [fst snd trace]. rewrite !last_snoc, !sent_app, H1, H2, H3. done.
Qed.

(** With choice 3, [run_agency.py] sends the next line to the agency
    as it was typed, blanks and all, and nothing else. *)
Theorem run_agency_task_unstripped line task rest :
  strip line = "3" →
  sent (trace (RunAgency.main (fresh (line :: task :: rest))).2) = [task] ∧
  stdin (RunAgency.main (fresh (line :: task :: rest))).2 = rest ∧
  (RunAgency.main (fresh (line :: task :: rest))).1
    = match respond [] task with
      | inr _ => inr ()
      | inl e => inl (Raised e)
      end.
Proof.
  intros Hchoice. unfold RunAgency.main, fresh.
  unfold mbind, session_bind, mret, session_ret, print, input, get_completion,
    record.
  cbn [stdin trace]. rewrite Hchoice.
  rewrite !(decide_False (P := "3" = "1")) by done.
  rewrite !(decide_False (P := "3" = "2")) by done.
  rewrite !(decide_True (P := "3" = "3")) by done.
  cbn [stdin trace app sent omap list_omap]. by destruct (respond [] task).
Qed.

End Menus.


(** ** The task loop and the automated builds *)

Section Builds.
Context `{agency_swarm : Swarm}.
Hypothesis Hanswers : never_raises agency_swarm.

Lemma run_tasks_sends tasks i total c :
  sent (trace (RunAgency.run_tasks i total tasks c).2)
    = sent (trace c) ++ take (S (length (stdin c))) tasks ∧
  (RunAgency.run_tasks i total tasks c).1
    = if decide (length tasks ≤ length (stdin c))%nat then inr ()
      else inl EOFError.
Proof.
  revert i c. induction tasks as [| task tasks IH]; intros i c.
  - simpl. by rewrite app_nil_r.
  - cbn [RunAgency.run_tasks].
    unfold mbind, session_bind, print, get_completion, input, record.
    cbn [trace stdin].
    match goal with |- context [respond ?h ?p] =>
      destruct (Hanswers h p) as [result ->] end.
    destruct (stdin c) as [| line rest] eqn:Hstdin.
    + simpl. rewrite !sent_app. simpl. rewrite !app_nil_r.
      by rewrite take_0.
    + cbn [fst snd trace stdin].
      match goal with |- context [RunAgency.run_tasks _ _ _ ?c'] =>
        destruct (IH (S i) c') as [-> ->] end.
      cbn [trace stdin]. rewrite !sent_app. simpl. rewrite !app_nil_r.
      rewrite <- app_assoc. split; [done |].
      repeat case_decide; try done; simpl in *; lia.
Qed.

End Builds.


Section Scripted.
Context `{agency_swarm : Swarm}.

Lemma scripted_run m lines prompts :
  scripted m lines prompts → ∀ c,
  stdin (m c).2 = stdin c ∧
  sent (trace (m c).2) `prefix_of` sent (trace c) ++ prompts ∧
  ((m c).1 = inr () →
     sent (trace (m c).2) = sent (trace c) ++ prompts ∧
     printed (trace (m c).2) = printed (trace c) ++ lines) ∧
  (∀ s, (m c).1 = inl s →
     ∃ e prompt, s = Raised e ∧
                 last (trace (m c).2) = Some (Completion prompt (inl e))) ∧
  (never_raises agency_swarm → (m c).1 = inr ()).
Proof.
  induction 1 as [| line k lines prompts _ IH | seconds k lines prompts _ IH
                  | prompt k lines prompts _ IH]; intros c.
  - cbn. rewrite !app_nil_r. repeat split; try done.
  - specialize (IH (record (Printed line) c)).
    unfold mbind, session_bind, print. cbn [fst snd].
    unfold record in *. cbn [stdin trace] in *.
    rewrite sent_app, printed_app in IH. cbn [sent printed omap list_omap] in IH.
    rewrite app_nil_r, <- app_assoc in IH. exact IH.
  - specialize (IH (record (Slept seconds) c)).
    unfold mbind, session_bind, sleep. cbn [fst snd].
    unfold record in *. cbn [stdin trace] in *.
    rewrite sent_app, printed_app in IH. cbn [sent printed omap list_omap] in IH.
    rewrite !app_nil_r in IH. exact IH.
  - unfold mbind, session_bind, get_completion.
    destruct (respond (sent (trace c)) prompt) as [e | result] eqn:Hanswer.
    + cbn [fst snd record trace stdin]. rewrite sent_app.
      cbn [sent omap list_omap]. repeat split; try done.
      * apply prefix_app, prefix_cons, prefix_nil.
      * intros s [= <-]. eexists _, _. split; [done |]. by rewrite last_snoc.
      * intros Hanswers. destruct (Hanswers (sent (trace c)) prompt). congruence.
    + specialize (IH (record (Completion prompt (inr result)) c)).
      cbn [fst snd]. unfold record in *. cbn [stdin trace] in *.
      rewrite sent_app, printed_app in IH.
      cbn [sent printed omap list_omap] in IH.
      rewrite app_nil_r, <- app_assoc in IH. exact IH.
Qed.

End Scripted.

Lemma automated_build_scripted :
  ∃ lines prompts, length prompts = 7 ∧
    ∀ agency_swarm : Swarm,
      scripted (@StartBuilding.automated_build agency_swarm) lines prompts.
Proof.
  eexists _, _. split; [| intros agency_swarm; repeat econstructor].
  reflexivity.
Qed.

Lemma node_automated_build_scripted :
  ∃ lines prompts, length prompts = 7 ∧
    ∀ agency_swarm : Swarm,
      scripted (@StartBuildingNode.automated_build agency_swarm) lines prompts.
Proof.
  eexists _, _. split; [| intros agency_swarm; repeat econstructor].
  reflexivity.
Qed.

(** What a scripted session prints and sends is what its run with the
    echoing agency shows. *)
Lemma scripted_echo (m : ∀ agency_swarm : Swarm, session unit) lines prompts :
  (∀ agency_swarm, scripted (m agency_swarm) lines prompts) →
  printed (trace (m echo_swarm (fresh [])).2) = lines ∧
  sent (trace (m echo_swarm (fresh [])).2) = prompts.
Proof.
  intros Hm.
  destruct (scripted_run _ _ _ (Hm echo_swarm) (fresh []))
    as (_ & _ & Hok & _ & Hall).
  destruct (Hok (Hall echo_swarm_answers)) as [-> ->]. done.
Qed.

(** With an agency that answers, the automated build of
    [start_building.py] returns, reads no input, sends its seven
    prompts and prints the same lines whatever the answers are. *)
Theorem automated_build_ignores_answers `{agency_swarm : Swarm} (c : console) :
  never_raises agency_swarm →
  (StartBuilding.automated_build c).1 = inr () ∧
  stdin (StartBuilding.automated_build c).2 = stdin c ∧
  printed (trace (StartBuilding.automated_build c).2)
    = printed (trace c) ++ build_lines ∧
  sent (trace (StartBuilding.automated_build c).2)
    = sent (trace c) ++ build_prompts ∧
  length build_prompts = 7.
Proof.
  intros Hanswers.
  destruct automated_build_scripted as (lines & prompts & Hlen & Hm).
  destruct (scripted_echo _ _ _ Hm) as [Hlines Hprompts].
  unfold build_lines, build_prompts. rewrite Hlines, Hprompts.
  destruct (scripted_run _ _ _ (Hm agency_swarm) c)
    as (Hin & _ & Hok & _ & Hall).
  destruct (Hok (Hall Hanswers)) as [Hsent Hprinted]. auto.
Qed.

(** The same for the automated build of [start_building_nodejs.py]. *)
Theorem node_automated_build_ignores_answers `{agency_swarm : Swarm}
    (c : console) :
  never_raises agency_swarm →
  (StartBuildingNode.automated_build c).1 = inr () ∧
  stdin (StartBuildingNode.automated_build c).2 = stdin c ∧
  printed (trace (StartBuildingNode.automated_build c).2)
    = printed (trace c) ++ node_build_lines ∧
  sent (trace (StartBuildingNode.automated_build c).2)
    = sent (trace c) ++ node_build_prompts ∧
  length node_build_prompts = 7.
Proof.
  intros Hanswers.
  destruct node_automated_build_scripted as (lines & prompts & Hlen & Hm).
  destruct (scripted_echo _ _ _ Hm) as [Hlines Hprompts].
  unfold node_build_lines, node_build_prompts. rewrite Hlines, Hprompts.
  destruct (scripted_run _ _ _ (Hm agency_swarm) c)
    as (Hin & _ & Hok & _ & Hall).
  destruct (Hok (Hall Hanswers)) as [Hsent Hprinted]. auto.
Qed.

(** Whatever the agency does, the automated build of
    [start_building.py] reads no input and sends an initial part of
    its seven prompts, in order. It ends in one of two ways: it
    returns, and then all seven were sent; or a request raised, and
    then that request is the last thing that happened. *)
Theorem automated_build_stops_at_failure `{agency_swarm : Swarm}
    (c : console) :
  stdin (StartBuilding.automated_build c).2 = stdin c ∧
  sent (trace (StartBuilding.automated_build c).2)
    `prefix_of` sent (trace c) ++ build_prompts ∧
  ((StartBuilding.automated_build c).1 = inr () →
     sent (trace (StartBuilding.automated_build c).2)
       = sent (trace c) ++ build_prompts) ∧
  (∀ s, (StartBuilding.automated_build c).1 = inl s →
     ∃ e prompt,
       s = Raised e ∧
       last (trace (StartBuilding.automated_build c).2)
         = Some (Completion prompt (inl e))).
Proof.
  destruct automated_build_scripted as (lines & prompts & Hlen & Hm).
  destruct (scripted_echo _ _ _ Hm) as [Hlines Hprompts].
  unfold build_prompts. rewrite Hprompts.
  destruct (scripted_run _ _ _ (Hm agency_swarm) c)
    as (Hin & Hpre & Hok & Hfail & _).
  repeat split; try done. intros Hend. by apply Hok.
Qed.

(** The same for the automated build of [start_building_nodejs.py]. *)
Theorem node_automated_build_stops_at_failure `{agency_swarm : Swarm}
    (c : console) :
  stdin (StartBuildingNode.automated_build c).2 = stdin c ∧
  sent (trace (StartBuildingNode.automated_build c).2)
    `prefix_of` sent (trace c) ++ node_build_prompts ∧
  ((StartBuildingNode.automated_build c).1 = inr () →
     sent (trace (StartBuildingNode.automated_build c).2)
       = sent (trace c) ++ node_build_prompts) ∧
  (∀ s, (StartBuildingNode.automated_build c).1 = inl s →
     ∃ e prompt,
       s = Raised e ∧
       last (trace (StartBuildingNode.automated_build c).2)
         = Some (Completion prompt (inl e))).
Proof.
  destruct node_automated_build_scripted as (lines & prompts & Hlen & Hm).
  destruct (scripted_echo _ _ _ Hm) as [Hlines Hprompts].
  unfold node_build_prompts. rewrite Hprompts.
  destruct (scripted_run _ _ _ (Hm agency_swarm) c)
    as (Hin & Hpre & Hok & Hfail & _).
  repeat split; try done. intros Hend. by apply Hok.
Qed.

(** ** The properties on concrete runs *)


Lemma write_None_empties_file_witness :
  @FileOperationTool_run posix_host "write" "notes.txt" None fs_with_notes =
    (PyStr "Error: write() argument must be str, not None",
     <[posixpath.join PROJECT_ROOT "notes.txt" := File EmptyString]>
       fs_with_notes) ∧
  @FileOperationTool_run posix_host "append" "notes.txt" None fs_with_notes =
    (PyStr "Error: write() argument must be str, not None", fs_with_notes).
Proof.
  apply (@write_None_empties_file posix_host "notes.txt" "hello" fs_with_notes).
  vm_compute. reflexivity.
Defined.

Lemma create_append_read_witness :
  ∃ fs2,
    @FileOperationTool_run posix_host "append" "notes.txt" (Some "cd")
      (@FileOperationTool_run posix_host "create" "notes.txt" (Some "ab") ∅).2
      = (PyStr "Appended to file: notes.txt", fs2) ∧
    ∃ s, @FileOperationTool_run posix_host "read" "notes.txt" None fs2
           = (PyStr s, fs2) ∧
         (has_CR "ab" = false → has_CR "cd" = false → s = "abcd").
Proof.
  apply (@create_append_read posix_host "notes.txt" "ab" "cd" ∅).
  vm_compute. reflexivity.
Defined.

Lemma create_write_read_witness :
  ∃ fs2,
    @FileOperationTool_run posix_host "write" "notes.txt" (Some "cd")
      (@FileOperationTool_run posix_host "create" "notes.txt" (Some "ab") ∅).2
      = (PyStr "Updated file: notes.txt", fs2) ∧
    ∃ s, @FileOperationTool_run posix_host "read" "notes.txt" None fs2
           = (PyStr s, fs2) ∧
         (has_CR "cd" = false → s = "cd").
Proof.
  apply (@create_write_read posix_host "notes.txt" "ab" "cd" ∅).
  vm_compute. reflexivity.
Defined.

Lemma create_None_is_empty_witness :
  @FileOperationTool_run posix_host "read" "notes.txt" None
    (@FileOperationTool_run posix_host "create" "notes.txt" None ∅).2
  = (PyStr EmptyString,
     (@FileOperationTool_run posix_host "create" "notes.txt" None ∅).2).
Proof.
  apply (@create_None_is_empty posix_host "notes.txt" ∅).
  vm_compute. reflexivity.
Defined.

Lemma TaskMasterTool_run_unknown_unmarked_witness :
  @TaskMasterTool_run posix_host "11.1" "delete" None None
    = @TaskMasterTool_run posix_host "11.1" "delete" None None ∧
  is_error_text (@TaskMasterTool_run posix_host "11.1" "delete" None None)
    = false.
Proof.
  apply (@TaskMasterTool_run_unknown_unmarked posix_host posix_host
           "11.1" "delete" None None).
  apply (bool_decide_unpack _). vm_compute. exact I.
Defined.


Lemma invalid_choice_witness :
  (@RunAgency.main echo_swarm (fresh [" 9 "])).1 = inl (SystemExit 1) ∧
  (@StartBuilding.main echo_swarm (fresh [" 9 "])).1 = inr () ∧
  (@StartBuildingNode.main echo_swarm (fresh [" 9 "])).1 = inr ().
Proof.
  destruct (@invalid_choice echo_swarm " 9 " [])
    as ((Hra & _) & (Hsb & _) & (Hjs & _)).
  - apply (bool_decide_unpack _). vm_compute. exact I.
  - split; [exact Hra |]. split; [exact Hsb | exact Hjs].
Defined.

Lemma run_agency_task_unstripped_witness :
  sent (trace (@RunAgency.main echo_swarm
                 (fresh [" 3"; "  build it  "; "more"])).2)
    = ["  build it  "].
Proof.
  destruct (@run_agency_task_unstripped echo_swarm " 3" "  build it  " ["more"])
    as (Hsent & _).
  - vm_compute. reflexivity.
  - exact Hsent.
Defined.


Lemma automated_build_ignores_answers_witness :
  (@StartBuilding.automated_build echo_swarm (fresh ["1"])).1 = inr () ∧
  stdin (@StartBuilding.automated_build echo_swarm (fresh ["1"])).2 = ["1"].
Proof.
  destruct (@automated_build_ignores_answers echo_swarm (fresh ["1"]))
    as (Hend & Hstdin & _).
  - apply echo_swarm_answers.
  - split; [exact Hend | exact Hstdin].
Defined.

Lemma node_automated_build_ignores_answers_witness :
  (@StartBuildingNode.automated_build echo_swarm (fresh ["1"])).1 = inr () ∧
  stdin (@StartBuildingNode.automated_build echo_swarm (fresh ["1"])).2 = ["1"].
Proof.
  destruct (@node_automated_build_ignores_answers echo_swarm (fresh ["1"]))
    as (Hend & Hstdin & _).
  - apply echo_swarm_answers.
  - split; [exact Hend | exact Hstdin].
Defined.
